(** * matt-gpt-slack-app: the conversation bridge of [app.js]

    A shallow embedding of [app.js] (the Slack handlers, the conversation
    codec, the backend client with retries and the turn orchestration in
    [processMessageRequest]) and the properties of it that the design
    document states.

    Conventions of the embedding.
    - A JavaScript string is its sequence of UTF-8 bytes ([string]).  Every
      pattern the source searches for is ASCII, and an ASCII byte never
      occurs inside a multi-byte UTF-8 sequence, so prefix tests, substring
      tests and replacements agree with the UTF-16 ones of the engine.
    - A property that may be missing is an [option]; [None] is [undefined].
      The conversation id, which the source also sets to [null] and
      interpolates into a template literal, is a [JsVal].
    - Calls that leave the process ([say], [client.conversations.replies],
      [client.chat.update], [axios.post], [setTimeout]) are answered by a
      [World], a deterministic environment that sees everything that
      happened before; each call is recorded in a trace of [Event]s.
      A call of Slack either resolves to an object with the properties
      the source reads from it or throws; a resolved value without them
      would make the source throw a TypeError inside the same [try] block
      and is a [Throw] here.  The body of an answer of the backend is a
      JSON object; an answer whose body is [null] is outside the model.
      Logging is not modelled.
    - Delays are in milliseconds, in [Z]; [maxRetries] is a natural
      number, as in the one call of the source, which passes 3. *)

From Stdlib Require Import String Ascii List Bool Arith ZArith Lia.
From Stdlib Require DecimalString.
Import ListNotations.
Local Open Scope string_scope.
Local Open Scope list_scope.
Local Open Scope nat_scope.

(** ** JavaScript values and strings *)

Module Js.

(** The values a conversation id takes in the source. *)
Inductive JsVal : Type :=
| JsUndefined
| JsNull
| JsString (s : string).

Definition isEmpty (s : string) : bool :=
  match s with EmptyString => true | String _ _ => false end.

(** [ToBoolean]: [undefined], [null] and the empty string are falsy. *)
Definition truthy (v : JsVal) : bool :=
  match v with
  | JsString s => negb (isEmpty s)
  | _ => false
  end.

(** Truthiness of a property that is a string when present. *)
Definition truthyS (o : option string) : bool :=
  match o with
  | Some s => negb (isEmpty s)
  | None => false
  end.

(** [a || b] *)
Definition orElse (a b : JsVal) : JsVal := if truthy a then a else b.

(** [a || b] where [a] may be missing and [b] is a string. *)
Definition orElseS (a : option string) (b : string) : string :=
  match a with
  | Some s => if isEmpty s then b else s
  | None => b
  end.

(** [`${v}`]: the [ToString] of a template literal. *)
Definition toString (v : JsVal) : string :=
  match v with
  | JsUndefined => "undefined"
  | JsNull => "null"
  | JsString s => s
  end.

Definition ofOption (o : option string) : JsVal :=
  match o with Some s => JsString s | None => JsUndefined end.

(** [s.startsWith(p)] *)
Definition startsWith (s p : string) : bool := String.prefix p s.

(** [s.includes(p)] *)
Fixpoint includes (s p : string) : bool :=
  startsWith s p ||
  match s with
  | EmptyString => false
  | String _ s' => includes s' p
  end.

Fixpoint drop (n : nat) (s : string) : string :=
  match n, s with
  | 0, _ => s
  | S _, EmptyString => EmptyString
  | S n', String _ s' => drop n' s'
  end.

(** [s.replace(p, r)] with a string pattern: the first occurrence only. *)
Fixpoint replace (s p r : string) : string :=
  if startsWith s p then (r ++ drop (String.length p) s)%string
  else match s with
       | EmptyString => EmptyString
       | String c s' => String c (replace s' p r)
       end.

Definition lowerAscii (c : ascii) : ascii :=
  let n := nat_of_ascii c in
  if (65 <=? n) && (n <=? 90) then ascii_of_nat (n + 32) else c.

(** [s.toLowerCase()].  Bytes outside ASCII are kept: the engine may change
    such a character, but never into the ASCII letters of the markers that
    the result is compared with (U+0130 lowers to [i] followed by U+0307,
    which no marker contains). *)
Fixpoint toLowerCase (s : string) : string :=
  match s with
  | EmptyString => EmptyString
  | String c s' => String (lowerAscii c) (toLowerCase s')
  end.

(** [s] reversed, onto [acc]. *)
Fixpoint revOnto (s acc : string) : string :=
  match s with
  | EmptyString => acc
  | String c s' => revOnto s' (String c acc)
  end.

(** Number of bytes of the white space character ([\s]) that [s] starts
    with, 0 when it starts with none: TAB, LF, VT, FF, CR, SP, U+00A0,
    U+1680, U+2000..U+200A, U+2028, U+2029, U+202F, U+205F, U+3000, U+FEFF. *)
Definition wsLen (s : string) : nat :=
  match s with
  | String c r =>
    let n := nat_of_ascii c in
    if ((9 <=? n) && (n <=? 13)) || (n =? 32) then 1
    else match r with
         | String c1 r1 =>
           let n1 := nat_of_ascii c1 in
           if (n =? 194) && (n1 =? 160) then 2
           else match r1 with
                | String c2 _ =>
                  let n2 := nat_of_ascii c2 in
                  if (n =? 225) && (n1 =? 154) && (n2 =? 128) then 3
                  else if (n =? 226) && (n1 =? 128) &&
                          (((128 <=? n2) && (n2 <=? 138)) || (n2 =? 168) ||
                           (n2 =? 169) || (n2 =? 175)) then 3
                  else if (n =? 226) && (n1 =? 129) && (n2 =? 159) then 3
                  else if (n =? 227) && (n1 =? 128) && (n2 =? 128) then 3
                  else if (n =? 239) && (n1 =? 187) && (n2 =? 191) then 3
                  else 0
                | EmptyString => 0
                end
         | EmptyString => 0
         end
  | EmptyString => 0
  end.

(** The same for the white space character that [s] ends with, [r] being
    [s] reversed. *)
Definition wsLenRev (r : string) : nat :=
  match r with
  | String c0 r0 =>
    let n0 := nat_of_ascii c0 in
    if ((9 <=? n0) && (n0 <=? 13)) || (n0 =? 32) then 1
    else match r0 with
         | String c1 r1 =>
           if wsLen (String c1 (String c0 EmptyString)) =? 2 then 2
           else match r1 with
                | String c2 _ =>
                  if wsLen (String c2 (String c1 (String c0 EmptyString))) =? 3
                  then 3 else 0
                | EmptyString => 0
                end
         | EmptyString => 0
         end
  | EmptyString => 0
  end.

Fixpoint skipWsFuel (len : string -> nat) (fuel : nat) (s : string) : string :=
  match fuel with
  | 0 => s
  | S fuel' =>
    match len s with
    | 0 => s
    | k => skipWsFuel len fuel' (drop k s)
    end
  end.

(** [\s*] at the start of [s]; one unit of fuel per byte is enough. *)
Definition skipWs (s : string) : string := skipWsFuel wsLen (String.length s) s.

(** [s.trim()] *)
Definition trim (s : string) : string :=
  let s1 := skipWs s in
  revOnto (skipWsFuel wsLenRev (String.length s1) (revOnto s1 EmptyString))
          EmptyString.

Fixpoint skipWhile (p : ascii -> bool) (s : string) : string :=
  match s with
  | EmptyString => EmptyString
  | String c s' => if p c then skipWhile p s' else s
  end.

(** Decimal rendering of a number in a template literal. *)
Definition ofNat (n : nat) : string := DecimalString.NilEmpty.string_of_uint (Nat.to_uint n).

End Js.

Export Js.


(** ** Slack and backend data *)

(** The [text] object of a block. *)
Record TextObject : Type := {
  to_type : string;
  to_text : option string
}.

(** A block of a message; [block_id] carries the hidden conversation id. *)
Record Block : Type := {
  block_type : string;
  block_id : option string;
  block_text : option TextObject
}.

(** A message as [chat.update] takes it and as [conversations.replies]
    returns it: the properties the source writes or reads. *)
Record SlackMessage : Type := {
  sm_text : option string;
  sm_thread_ts : option string;
  sm_bot_id : option string;
  sm_blocks : option (list Block);
  sm_unfurl_links : option bool;
  sm_unfurl_media : option bool
}.

(** The [message] of the message event and the [event] of [app_mention].
    [bot_profile] is an object; its name stands for it. *)
Record Message : Type := {
  channel : string;
  user : option string;
  text : option string;
  ts : string;
  thread_ts : option string;
  subtype : option string;
  bot_id : option string;
  bot_profile : option string
}.

(** [process.env], read once at start up. *)
Record Env : Type := {
  SLACK_CHANNEL_ID : option string;
  MATT_GPT_API_URL_env : option string;
  MATT_GPT_BEARER_TOKEN : option string;
  OPENROUTER_API_KEY : option string;
  SLACK_BOT_USER_ID : option string
}.

Definition MONITORED_CHANNEL (env : Env) : option string := SLACK_CHANNEL_ID env.

Definition MATT_GPT_API_URL (env : Env) : string :=
  orElseS (MATT_GPT_API_URL_env env) "http://localhost:8000".

(** A thrown [Error]; the source reads its [message] only. *)
Record JsError : Type := { message : string }.

Inductive Result (A : Type) : Type :=
| Ok (a : A)
| Throw (error : JsError).
Arguments Ok {A} a.
Arguments Throw {A} error.

(** The argument of [client.conversations.replies]. *)
Record RepliesReq : Type := {
  rq_channel : string;
  rq_ts : string;
  rq_limit : nat
}.

(** The argument of [say]; the redirect of a direct message has no
    [thread_ts]. *)
Record SayArgs : Type := {
  say_text : string;
  say_thread_ts : option string
}.

(** What [say] resolves to; the source reads [ts]. *)
Record SayResp : Type := { posted_ts : option string }.

(** [axios.post(url, requestPayload, requestConfig)]; [conversation_id] is
    a property of the payload only when the context has a truthy one. *)
Record PostReq : Type := {
  post_url : string;
  post_message : option string;
  post_openrouter_api_key : option string;
  post_conversation_id : option string;
  post_authorization : string;
  post_content_type : string;
  post_timeout : Z
}.

(** [response.data], a JSON object; [query_id], [tokens_used], [latency_ms]
    and [context_items_used] are logged only and left out. *)
Record ResponseData : Type := {
  resp_response : option string;
  resp_conversation_id : JsVal
}.

(** The argument of [client.chat.update]: channel, [ts] of the message to
    edit and the spread payload. *)
Record UpdateArgs : Type := {
  upd_channel : string;
  upd_ts : option string;
  upd_payload : SlackMessage
}.

(** The context object handed to the backend client. *)
Record ApiContext : Type := {
  ctx_thread_ts : string;
  ctx_channel : string;
  ctx_user_id : option string;
  ctx_conversation_id : JsVal
}.

(** ** The outside world and the trace *)

Inductive Event : Type :=
| EvReplies (req : RepliesReq) (res : Result (list SlackMessage))
| EvSay (args : SayArgs) (res : Result SayResp)
| EvPost (req : PostReq) (res : Result ResponseData)
| EvSleep (ms : Z)
| EvUpdate (args : UpdateArgs) (res : Result unit).

Definition Trace : Type := list Event.

(** The environment answers each call from the call and all that happened
    before it. *)
Record World : Type := {
  on_replies : Trace -> RepliesReq -> Result (list SlackMessage);
  on_say : Trace -> SayArgs -> Result SayResp;
  on_post : Trace -> PostReq -> Result ResponseData;
  on_update : Trace -> UpdateArgs -> Result unit
}.

(** ** A state monad over the trace, and exceptions *)

Definition M (A : Type) : Type := Trace -> A * Trace.

Definition ret {A : Type} (a : A) : M A := fun tr => (a, tr).

Definition bind {A B : Type} (m : M A) (k : A -> M B) : M B :=
  fun tr => let (a, tr') := m tr in k a tr'.

(** Sequencing inside a [try] block: a thrown error skips the rest. *)
Definition tryBind {A B : Type} (m : M (Result A)) (k : A -> M (Result B))
  : M (Result B) :=
  bind m (fun r => match r with
                   | Ok a => k a
                   | Throw e => ret (Throw e)
                   end).

Definition ok {A : Type} (a : A) : M (Result A) := ret (Ok a).
Definition throw {A : Type} (e : JsError) : M (Result A) := ret (Throw e).

Declare Scope js_scope.
Delimit Scope js_scope with js.
Notation "x <- m ;; k" := (bind m (fun x => k))
  (at level 100, m at next level, right associativity) : js_scope.
Notation "x <-? m ;; k" := (tryBind m (fun x => k))
  (at level 100, m at next level, right associativity) : js_scope.
Local Open Scope js_scope.

(** The events a computation adds to a trace, and its value. *)
Definition value {A : Type} (r : A * Trace) : A := fst r.
Definition trace {A : Type} (r : A * Trace) : Trace := snd r.

(** ** The conversation codec *)

(** The loop of [extractConversationId] over [message.blocks]. *)
Fixpoint extractFromBlocks (blocks : list Block) : JsVal :=
  match blocks with
  | [] => JsNull
  | block :: rest =>
    if truthyS (block_id block) &&
       match block_id block with
       | Some id => startsWith id "conv_"
       | None => false
       end
    then match block_id block with
         | Some id => JsString (replace id "conv_" EmptyString)
         | None => JsNull
         end
    else extractFromBlocks rest
  end.

Definition extractConversationId (m : SlackMessage) : JsVal :=
  match sm_blocks m with
  | Some blocks => extractFromBlocks blocks
  | None => JsNull
  end.

Definition createMessageWithConversationId
    (txt : option string) (conversationId : JsVal) (threadTs : string)
  : SlackMessage :=
  {| sm_text := txt;
     sm_thread_ts := Some threadTs;
     sm_bot_id := None;
     sm_blocks := Some
       [ {| block_type := "section";
            block_id := Some ("conv_" ++ toString conversationId)%string;
            block_text := Some {| to_type := "mrkdwn"; to_text := txt |} |} ];
     sm_unfurl_links := Some false;
     sm_unfurl_media := Some false |}.

(** ** Channel kinds and mention stripping *)

Definition isDMChannel (channelId : string) : bool := startsWith channelId "D".

Definition isProbablyGroupDMOrPrivateChannel (channelId : string) : bool :=
  startsWith channelId "G".

Definition isUW (c : ascii) : bool :=
  Ascii.eqb c "U"%char || Ascii.eqb c "W"%char.

(** [[A-Z0-9]] *)
Definition isUpperOrDigit (c : ascii) : bool :=
  let n := nat_of_ascii c in
  ((65 <=? n) && (n <=? 90)) || ((48 <=? n) && (n <=? 57)).

Definition notGt (c : ascii) : bool := negb (Ascii.eqb c ">"%char).

(** The end of the match: [>] and then [\s*]. *)
Definition closeMention (s : string) : option string :=
  match s with
  | String ">" rest => Some (skipWs rest)
  | _ => None
  end.

(** The match of [/^<@[UW][A-Z0-9]+(?:\|[^>]+)?>\s*/] at the start of [s]:
    what follows the match, or [None] when there is no match.  Each
    quantifier is greedy and is followed by a character outside its class,
    so the first attempt of the engine is the only one that can succeed. *)
Definition matchMention (s : string) : option string :=
  match s with
  | String "<" (String "@" (String c (String d rest))) =>
    if isUW c && isUpperOrDigit d then
      match skipWhile isUpperOrDigit rest with
      | String "|" (String e rest') =>
        if notGt e then closeMention (skipWhile notGt rest') else None
      | after => closeMention after
      end
    else None
  | _ => None
  end.

Definition cleanMessageText (txt : option string) : option string :=
  match txt with
  | None => None
  | Some s =>
    if isEmpty s then Some s
    else Some (trim (match matchMention s with
                     | Some rest => rest
                     | None => s
                     end))
  end.

(** ** The program *)

(** Which way [processMessageRequest] left: at the side note test, after a
    configuration message, after the edit of the placeholder, or through
    the [catch] block. *)
Inductive Outcome : Type :=
| SideNoteSkipped
| NotConfigured
| Delivered
| Failed (error : JsError).

(** Which way a handler left: without a word, after the pointer message, or
    through [processMessageRequest]. *)
Inductive Verdict : Type :=
| Ignore
| RedirectToChannel
| Processed (o : Outcome).

Section Program.

Variable env : Env.
Variable w : World.

(** *** Calls that leave the process *)

Definition conversations_replies (req : RepliesReq)
  : M (Result (list SlackMessage)) :=
  fun tr => let r := on_replies w tr req in (r, tr ++ [EvReplies req r]).

Definition say (args : SayArgs) : M (Result SayResp) :=
  fun tr => let r := on_say w tr args in (r, tr ++ [EvSay args r]).

Definition axios_post (req : PostReq) : M (Result ResponseData) :=
  fun tr => let r := on_post w tr req in (r, tr ++ [EvPost req r]).

Definition chat_update (args : UpdateArgs) : M (Result unit) :=
  fun tr => let r := on_update w tr args in (r, tr ++ [EvUpdate args r]).

(** [await new Promise((resolve) => setTimeout(resolve, delay))] *)
Definition setTimeout (delay : Z) : M unit :=
  fun tr => (tt, tr ++ [EvSleep delay]).

(** *** The backend client *)

Definition requestFor (msg : option string) (context : ApiContext) : PostReq :=
  {| post_url := (MATT_GPT_API_URL env ++ "/chat")%string;
     post_message := msg;
     post_openrouter_api_key := OPENROUTER_API_KEY env;
     post_conversation_id :=
       match ctx_conversation_id context with
       | JsString id => if isEmpty id then None else Some id
       | _ => None
       end;
     post_authorization :=
       ("Bearer " ++ toString (ofOption (MATT_GPT_BEARER_TOKEN env)))%string;
     post_content_type := "application/json";
     post_timeout := 30000%Z |}.

(** The [for] loop of [callMattGPTWithRetry]: [fuel] is the number of
    values of [attempt] left up to [maxRetries].  The loop left without a
    [return], the function returns [undefined] ([None]).  The delay
    [Math.pow(2, attempt) * 1000] is exact in a double, and within the
    range of [setTimeout], for [attempt] up to 21, so for [maxRetries] up
    to 22; the source calls the function with 3. *)
Fixpoint retryLoop (fuel attempt maxRetries : nat)
    (msg : option string) (context : ApiContext)
  : M (Result (option ResponseData)) :=
  match fuel with
  | 0 => ok None
  | S fuel' =>
    r <- axios_post (requestFor msg context) ;;
    match r with
    | Ok data => ok (Some data)
    | Throw error =>
      if attempt =? maxRetries then
        throw {| message :=
                   ("Matt-GPT API failed after " ++ ofNat maxRetries ++
                    " attempts: " ++ message error)%string |}
      else
        _ <- setTimeout (2 ^ Z.of_nat attempt * 1000)%Z ;;
        retryLoop fuel' (attempt + 1) maxRetries msg context
    end
  end.

Definition callMattGPTWithRetry
    (msg : option string) (context : ApiContext) (maxRetries : nat)
  : M (Result (option ResponseData)) :=
  retryLoop maxRetries 1 maxRetries msg context.

(** *** One turn *)

(** [thread_ts && thread_ts !== ts]: the anchor of the thread that the
    message replies in, when it is a thread reply. *)
Definition threadReplyAnchor (m : Message) : option string :=
  match thread_ts m with
  | Some t => if negb (isEmpty t) && negb (String.eqb t (ts m))
              then Some t else None
  | None => None
  end.

(** The scan of the history, most recent message first, for the id of a
    bot message. *)
Fixpoint scanForConversationId (msgs : list SlackMessage) : JsVal :=
  match msgs with
  | [] => JsNull
  | msg :: rest =>
    if truthyS (sm_bot_id msg) then
      let existingConvId := extractConversationId msg in
      if truthy existingConvId then existingConvId
      else scanForConversationId rest
    else scanForConversationId rest
  end.

(** The inner [try] of [processMessageRequest], the history reconstructor
    of the design: the thread history is fetched and scanned; a failed
    fetch is caught and leaves [conversationId] at [null]. *)
Definition locateConversation (channelId threadTs : string) : M JsVal :=
  r <- conversations_replies
         {| rq_channel := channelId; rq_ts := threadTs; rq_limit := 50 |} ;;
  match r with
  | Ok messages => ret (scanForConversationId (List.rev messages))
  | Throw _ => ret JsNull
  end.

Definition startsWithSideNote (cleanedText : option string) : bool :=
  match cleanedText with
  | Some c =>
    negb (isEmpty c) &&
    (let lowerText := toLowerCase c in
     startsWith lowerText "side note" || startsWith lowerText "sidenote" ||
     startsWith lowerText "side-note")
  | None => false
  end.

Definition thinkingText : string := "🤔 Thinking...".

(** The body of the outer [try] of [processMessageRequest]. *)
Definition tryTurn (m : Message) (cleanedText : option string)
  : M (Result Outcome) :=
  let anchor := orElseS (thread_ts m) (ts m) in
  if negb (truthyS (MATT_GPT_BEARER_TOKEN env)) then
    _ <-? say {| say_text := "❌ Matt-GPT API is not configured. Please set MATT_GPT_BEARER_TOKEN environment variable.";
                 say_thread_ts := Some anchor |} ;;
    ok NotConfigured
  else if negb (truthyS (OPENROUTER_API_KEY env)) then
    _ <-? say {| say_text := "❌ OpenRouter API key is not configured. Please set OPENROUTER_API_KEY environment variable.";
                 say_thread_ts := Some anchor |} ;;
    ok NotConfigured
  else
    conversationId <-
      match threadReplyAnchor m with
      | Some t => locateConversation (channel m) t
      | None => ret JsNull
      end ;;
    thinkingMsg <-? say {| say_text := thinkingText;
                           say_thread_ts := Some anchor |} ;;
    let apiContext :=
      {| ctx_thread_ts := anchor;
         ctx_channel := channel m;
         ctx_user_id := user m;
         ctx_conversation_id :=
           if truthy conversationId then conversationId else JsUndefined |} in
    mattGPTResponse <-? callMattGPTWithRetry cleanedText apiContext 3 ;;
    match mattGPTResponse with
    | None =>
      throw {| message := "Cannot read properties of undefined (reading 'query_id')" |}
    | Some data =>
      let responseConversationId :=
        orElse (resp_conversation_id data) conversationId in
      let responsePayload :=
        createMessageWithConversationId
          (resp_response data) responseConversationId anchor in
      _ <-? chat_update {| upd_channel := channel m;
                           upd_ts := posted_ts thinkingMsg;
                           upd_payload := responsePayload |} ;;
      ok Delivered
    end.

(** The apology of the [catch] block, chosen from the error's message. *)
Definition userMessageFor (error : JsError) : string :=
  if includes (message error) "timeout" then
    "⏰ Request timed out. Please try again."
  else if includes (message error) "rate" then
    "🚦 Service is busy. Please wait a moment and try again."
  else if includes (message error) "API" then
    "🤖 Matt-GPT is temporarily unavailable. Please try again later."
  else
    "❌ Something went wrong. Please try again.".

Definition processMessageRequest (m : Message) : M Outcome :=
  let cleanedText := cleanMessageText (text m) in
  if startsWithSideNote cleanedText then ret SideNoteSkipped
  else
    r <- tryTurn m cleanedText ;;
    match r with
    | Ok o => ret o
    | Throw error =>
      (* the fallback message; its own failure is caught and logged *)
      _ <- say {| say_text := userMessageFor error;
                  say_thread_ts := Some (orElseS (thread_ts m) (ts m)) |} ;;
      ret (Failed error)
    end.

(** *** The message event *)

Definition differsFromMonitored (channelId : string) : bool :=
  match MONITORED_CHANNEL env with
  | Some c => negb (String.eqb channelId c)
  | None => true
  end.

(** [MONITORED_CHANNEL && channel !== MONITORED_CHANNEL] *)
Definition outsideMonitored (channelId : string) : bool :=
  truthyS (MONITORED_CHANNEL env) && differsFromMonitored channelId.

Definition redirectText : string :=
  if truthyS (MONITORED_CHANNEL env) then
    ("👋 Hi there! I only respond to messages in <#" ++
     toString (ofOption (MONITORED_CHANNEL env)) ++
     ">. Please write your message there and I'll respond in the thread!")%string
  else
    "👋 Hi there! I only respond to messages in channels, not DMs. Please write your message in a channel where I'm present and I'll respond in the thread!".

Definition botMention : string :=
  ("<@" ++ orElseS (SLACK_BOT_USER_ID env) "U09BR46BEV8" ++ ">")%string.

(** [text && text.includes(`<@...>`)] *)
Definition containsMention (m : Message) : bool :=
  match text m with
  | Some t => negb (isEmpty t) && includes t botMention
  | None => false
  end.

(** [threadHistory.messages.some(msg => msg.bot_id)] *)
Definition hasBotMessages (messages : list SlackMessage) : bool :=
  existsb (fun msg => truthyS (sm_bot_id msg)) messages.

(** The handler of [app.message].  An error of [say] in the redirect is
    not caught and leaves the handler. *)
Definition messageHandler (m : Message) : M (Result Verdict) :=
  if truthyS (bot_id m) then ok Ignore
  else if truthyS (subtype m) &&
          negb (match subtype m with
                | Some st => String.eqb st "thread_broadcast"
                | None => false
                end) then ok Ignore
  else if match bot_profile m with Some _ => true | None => false end
       then ok Ignore
  else if match user m with
          | Some u => String.eqb u "USLACKBOT"
          | None => false
          end then ok Ignore
  else if isDMChannel (channel m) then
    _ <-? say {| say_text := redirectText; say_thread_ts := None |} ;;
    ok RedirectToChannel
  else if isProbablyGroupDMOrPrivateChannel (channel m) &&
          outsideMonitored (channel m) then ok Ignore
  else if outsideMonitored (channel m) then ok Ignore
  else
    shouldRespond <-
      (if containsMention m then ret false
       else match threadReplyAnchor m with
            | Some t =>
              r <- conversations_replies
                     {| rq_channel := channel m; rq_ts := t; rq_limit := 50 |} ;;
              match r with
              | Ok messages => ret (hasBotMessages messages)
              | Throw _ => ret false
              end
            | None => ret false
            end) ;;
    if negb shouldRespond then ok Ignore
    else
      o <- processMessageRequest m ;;
      ok (Processed o).

(** *** The app_mention event *)

Definition mockMessage (event : Message) : Message :=
  {| channel := channel event;
     user := user event;
     text := text event;
     ts := ts event;
     thread_ts := thread_ts event;
     subtype := None;
     bot_id := None;
     bot_profile := None |}.

Definition appMentionHandler (event : Message) : M Verdict :=
  if outsideMonitored (channel event) then ret Ignore
  else
    o <- processMessageRequest (mockMessage event) ;;
    ret (Processed o).

End Program.

(** ** Observations of a run *)

(** The events that a computation adds to the trace it starts from. *)
Definition events {A : Type} (c : M A) (tr : Trace) : Trace :=
  skipn (length tr) (trace (c tr)).

Definition isUpdate (e : Event) : bool :=
  match e with EvUpdate _ _ => true | _ => false end.

(** The requests sent to the backend, in order. *)
Fixpoint postsOf (tr : Trace) : list PostReq :=
  match tr with
  | [] => []
  | EvPost req _ :: rest => req :: postsOf rest
  | _ :: rest => postsOf rest
  end.

(** The answers of the backend, in order. *)
Fixpoint answersOf (tr : Trace) : list ResponseData :=
  match tr with
  | [] => []
  | EvPost _ (Ok data) :: rest => data :: answersOf rest
  | _ :: rest => answersOf rest
  end.

(** The delays waited, in order. *)
Fixpoint sleepsOf (tr : Trace) : list Z :=
  match tr with
  | [] => []
  | EvSleep ms :: rest => ms :: sleepsOf rest
  | _ :: rest => sleepsOf rest
  end.

(** The back-off after the failed attempt [attempt], in milliseconds. *)
Definition delayAfter (attempt : nat) : Z := (2 ^ Z.of_nat attempt * 1000)%Z.

(** The replies handed to [chat.update], in order. *)
Fixpoint repliesOf (tr : Trace) : list SlackMessage :=
  match tr with
  | [] => []
  | EvUpdate args _ :: rest => upd_payload args :: repliesOf rest
  | _ :: rest => repliesOf rest
  end.

(** The [ts] of the placeholder, when one was posted. *)
Fixpoint placeholderOf (tr : Trace) : option (option string) :=
  match tr with
  | [] => None
  | EvSay args (Ok posted) :: rest =>
    if String.eqb (say_text args) thinkingText then Some (posted_ts posted)
    else placeholderOf rest
  | _ :: rest => placeholderOf rest
  end.

Definition eqbTs (a b : option string) : bool :=
  match a, b with
  | Some x, Some y => String.eqb x y
  | None, None => true
  | _, _ => false
  end.

(** The message [p] was edited in place.  The source never deletes a
    message, so an edit is the only way a placeholder is resolved. *)
Definition resolved (p : option string) (tr : Trace) : bool :=
  existsb (fun e => match e with
                    | EvUpdate args (Ok _) => eqbTs (upd_ts args) p
                    | _ => false
                    end) tr.

(** Only the backend client adds such events. *)
Definition backendOnly (e : Event) : bool :=
  match e with
  | EvPost _ _ | EvSleep _ => true
  | _ => false
  end.

(** ** The messages of a turn *)

(** [thread_ts || ts] *)
Definition anchorOf (m : Message) : string := orElseS (thread_ts m) (ts m).

Definition thinkingArgs (m : Message) : SayArgs :=
  {| say_text := thinkingText; say_thread_ts := Some (anchorOf m) |}.

Definition apologyArgs (m : Message) (e : JsError) : SayArgs :=
  {| say_text := userMessageFor e; say_thread_ts := Some (anchorOf m) |}.

Definition contextFor (m : Message) (conversationId : JsVal) : ApiContext :=
  {| ctx_thread_ts := anchorOf m;
     ctx_channel := channel m;
     ctx_user_id := user m;
     ctx_conversation_id :=
       if truthy conversationId then conversationId else JsUndefined |}.

(** The edit of the placeholder [posted] into the reply to [m]. *)
Definition updateFor (m : Message) (posted : SayResp) (data : ResponseData)
    (conversationId : JsVal) : UpdateArgs :=
  {| upd_channel := channel m;
     upd_ts := posted_ts posted;
     upd_payload :=
       createMessageWithConversationId
         (resp_response data)
         (orElse (resp_conversation_id data) conversationId)
         (anchorOf m) |}.

(** The pointer message of the redirect. *)
Definition redirectArgs (env : Env) : SayArgs :=
  {| say_text := redirectText env; say_thread_ts := None |}.

(** The event of a [say] in the world [w] after [tr]. *)
Definition sayEvent (w : World) (tr : Trace) (args : SayArgs) : Event :=
  EvSay args (on_say w tr args).

(** The fetch of the thread history that a turn starts with, for a thread
    reply. *)
Definition historyFetch (w : World) (m : Message) (tr : Trace) : Trace :=
  match threadReplyAnchor m with
  | Some t =>
    let req := {| rq_channel := channel m; rq_ts := t; rq_limit := 50 |} in
    [EvReplies req (on_replies w tr req)]
  | None => []
  end.

Definition undefinedResponse : JsError :=
  {| message := "Cannot read properties of undefined (reading 'query_id')" |}.

(** ** Notions of the design document *)

(** The decoding rule in the words of the design, written without the
    decoder of the source: the blocks are scanned in order for the first
    identifier that begins with the tag. *)
Definition carriesTag (block : Block) : bool :=
  match block_id block with
  | Some id => String.prefix "conv_" id
  | None => false
  end.

(** The identifier of that block with the five characters of the tag cut
    off; [None] when no block carries the tag. *)
Definition specDecode (m : SlackMessage) : option string :=
  match sm_blocks m with
  | Some blocks =>
    match find carriesTag blocks with
    | Some block =>
      option_map (fun id => String.substring 5 (String.length id - 5) id)
                 (block_id block)
    | None => None
    end
  | None => None
  end.

(** A message authored by a bot from which the rule decodes an id that is
    not empty. *)
Definition specEmbeds (m : SlackMessage) : bool :=
  truthyS (sm_bot_id m) &&
  match specDecode m with
  | Some id => negb (isEmpty id)
  | None => false
  end.

(** The id that the design's algorithm recovers from a window of the
    history, given oldest first: that of the most recent message that
    embeds one. *)
Definition specLocate (window : list SlackMessage) : JsVal :=
  match find specEmbeds (List.rev window) with
  | Some m =>
    match specDecode m with
    | Some id => JsString id
    | None => JsNull
    end
  | None => JsNull
  end.

(** The platform is not part of the source.  The window that a fetch with
    limit [n] returns, as the design describes it: the [n] most recent
    messages of the thread, oldest first. *)
Definition mostRecent (n : nat) (thread : list SlackMessage)
  : list SlackMessage :=
  skipn (length thread - n) thread.


(** A bot-authored message that embeds a conversation id. *)
Definition embedsId (m : SlackMessage) : bool :=
  truthyS (sm_bot_id m) && truthy (extractConversationId m).

(** [p] is a prefix of [s] up to the case of ASCII letters. *)
Fixpoint ciPrefix (p s : string) : bool :=
  match p, s with
  | EmptyString, _ => true
  | String _ _, EmptyString => false
  | String a p', String b s' =>
    Ascii.eqb (lowerAscii a) (lowerAscii b) && ciPrefix p' s'
  end.

Definition beginsWithAside (s : string) : bool :=
  ciPrefix "side note" s || ciPrefix "sidenote" s || ciPrefix "side-note" s.

(** Both backend credentials are set. *)
Definition configured (env : Env) : bool :=
  truthyS (MATT_GPT_BEARER_TOKEN env) && truthyS (OPENROUTER_API_KEY env).

(** The guards of the message handler against bots and automated messages
    all fall through. *)
Definition fromHuman (m : Message) : bool :=
  negb (truthyS (bot_id m)) &&
  negb (truthyS (subtype m) &&
        negb (match subtype m with
              | Some st => String.eqb st "thread_broadcast"
              | None => false
              end)) &&
  negb (match bot_profile m with Some _ => true | None => false end) &&
  negb (match user m with
        | Some u => String.eqb u "USLACKBOT"
        | None => false
        end).

(** The id that the turn recovers from the thread: [null] when the message
    is not a thread reply. *)
Definition locatedId (w : World) (m : Message) (tr : Trace) : JsVal :=
  match threadReplyAnchor m with
  | Some t => value (locateConversation w (channel m) t tr)
  | None => JsNull
  end.

(** ** The events of a turn *)

(** The messages posted with [say], in order. *)
Fixpoint saysOf (tr : Trace) : list SayArgs :=
  match tr with
  | [] => []
  | EvSay args _ :: rest => args :: saysOf rest
  | _ :: rest => saysOf rest
  end.

(** The history fetches, in order. *)
Fixpoint fetchesOf (tr : Trace) : list RepliesReq :=
  match tr with
  | [] => []
  | EvReplies req _ :: rest => req :: fetchesOf rest
  | _ :: rest => fetchesOf rest
  end.

(** The edits handed to [chat.update], in order. *)
Fixpoint updatesOf (tr : Trace) : list UpdateArgs :=
  match tr with
  | [] => []
  | EvUpdate args _ :: rest => args :: updatesOf rest
  | _ :: rest => updatesOf rest
  end.

(** The event is a request to the backend. *)
Definition isBackendRequest (e : Event) : Prop :=
  match e with EvPost _ _ => True | _ => False end.

(** The message handler has nothing to do with the message: it comes from
    a bot, or it comes from a channel that is no direct conversation and
    it is outside the monitored channel, mentions the bot or is no thread
    reply. *)
Definition passedOver (env : Env) (m : Message) : bool :=
  negb (fromHuman m) ||
  (negb (isDMChannel (channel m)) &&
   (outsideMonitored env (channel m) || containsMention env m ||
    match threadReplyAnchor m with Some _ => false | None => true end)).

(** The test of [extractConversationId] on a block:
    [block.block_id && block.block_id.startsWith('conv_')]. *)
Definition isTagged (block : Block) : bool :=
  truthyS (block_id block) &&
  match block_id block with
  | Some id => startsWith id "conv_"
  | None => false
  end.

(** Every character of [s] satisfies [p]. *)
Fixpoint allChars (p : ascii -> bool) (s : string) : bool :=
  match s with
  | EmptyString => true
  | String c s' => p c && allChars p s'
  end.

(** The message about the credential that is missing: the bearer token is
    tested first. *)
Definition configArgs (env : Env) (m : Message) : SayArgs :=
  {| say_text :=
       if negb (truthyS (MATT_GPT_BEARER_TOKEN env)) then
         "❌ Matt-GPT API is not configured. Please set MATT_GPT_BEARER_TOKEN environment variable."
       else
         "❌ OpenRouter API key is not configured. Please set OPENROUTER_API_KEY environment variable.";
     say_thread_ts := Some (anchorOf m) |}.

(** The request that a turn sends to the backend. *)
Definition turnRequest (env : Env) (w : World) (m : Message) (tr : Trace)
  : PostReq :=
  requestFor env (cleanMessageText (text m)) (contextFor m (locatedId w m tr)).

(** What the backend client adds to the trace of a turn: requests and
    delays only, between one and three requests, all the same. *)
Definition BackendRun (env : Env) (w : World) (m : Message) (tr : Trace)
    (be : Trace) : Prop :=
  Forall (fun e => backendOnly e = true) be /\
  0 < length (postsOf be) <= 3 /\
  Forall (fun q => q = turnRequest env w m tr) (postsOf be).

(** The message of the error that the backend client throws after its
    third attempt failed with [cause]. *)
Definition exhaustedMessage (cause : JsError) : string :=
  ("Matt-GPT API failed after 3 attempts: " ++ message cause)%string.

(** The ways of a turn: its outcome and the events it adds after [tr]. *)
Inductive TurnEvents (env : Env) (w : World) (m : Message) (tr : Trace)
  : Outcome -> Trace -> Prop :=
| TurnAside :
    startsWithSideNote (cleanMessageText (text m)) = true ->
    TurnEvents env w m tr SideNoteSkipped []
| TurnUnconfigured (posted : SayResp) :
    startsWithSideNote (cleanMessageText (text m)) = false ->
    configured env = false ->
    TurnEvents env w m tr NotConfigured [EvSay (configArgs env m) (Ok posted)]
| TurnUnconfiguredFailed (e : JsError) (a : Result SayResp) :
    startsWithSideNote (cleanMessageText (text m)) = false ->
    configured env = false ->
    TurnEvents env w m tr (Failed e)
      [EvSay (configArgs env m) (Throw e); EvSay (apologyArgs m e) a]
| TurnNoPlaceholder (e : JsError) (a : Result SayResp) :
    startsWithSideNote (cleanMessageText (text m)) = false ->
    configured env = true ->
    TurnEvents env w m tr (Failed e)
      (historyFetch w m tr ++
       [EvSay (thinkingArgs m) (Throw e); EvSay (apologyArgs m e) a])
| TurnDelivered (posted : SayResp) (be : Trace) (data : ResponseData) :
    startsWithSideNote (cleanMessageText (text m)) = false ->
    configured env = true ->
    BackendRun env w m tr be ->
    answersOf be = [data] ->
    TurnEvents env w m tr Delivered
      (historyFetch w m tr ++
       EvSay (thinkingArgs m) (Ok posted) :: be ++
       [EvUpdate (updateFor m posted data (locatedId w m tr)) (Ok tt)])
| TurnEditFailed (posted : SayResp) (be : Trace) (data : ResponseData)
    (e : JsError) (a : Result SayResp) :
    startsWithSideNote (cleanMessageText (text m)) = false ->
    configured env = true ->
    BackendRun env w m tr be ->
    answersOf be = [data] ->
    TurnEvents env w m tr (Failed e)
      (historyFetch w m tr ++
       EvSay (thinkingArgs m) (Ok posted) :: be ++
       [EvUpdate (updateFor m posted data (locatedId w m tr)) (Throw e);
        EvSay (apologyArgs m e) a])
| TurnBackendFailed (posted : SayResp) (be : Trace) (cause : JsError)
    (a : Result SayResp) :
    startsWithSideNote (cleanMessageText (text m)) = false ->
    configured env = true ->
    BackendRun env w m tr be ->
    answersOf be = [] ->
    length (postsOf be) = 3 ->
    TurnEvents env w m tr (Failed {| message := exhaustedMessage cause |})
      (historyFetch w m tr ++
       EvSay (thinkingArgs m) (Ok posted) :: be ++
       [EvSay (apologyArgs m {| message := exhaustedMessage cause |}) a]).

(** ** Worlds and messages of the examples *)

Module Examples.

Definition env1 : Env :=
  {| SLACK_CHANNEL_ID := Some "C1";
     MATT_GPT_API_URL_env := None;
     MATT_GPT_BEARER_TOKEN := Some "secret";
     OPENROUTER_API_KEY := Some "sk-or-1";
     SLACK_BOT_USER_ID := None |}.

Definition timedOut : JsError := {| message := "timeout of 30000ms exceeded" |}.

(** A world that answers every history fetch with [history], every [say]
    with [posted], every edit with [edited], and the k-th request to the
    backend with the k-th of [answers] (a time out beyond them). *)
Definition scripted
    (history : Result (list SlackMessage)) (posted : Result SayResp)
    (answers : list (Result ResponseData)) (edited : Result unit) : World :=
  {| on_replies := fun _ _ => history;
     on_say := fun _ _ => posted;
     on_post := fun tr _ => nth (length (postsOf tr)) answers (Throw timedOut);
     on_update := fun _ _ => edited |}.

Definition placeholder : SayResp := {| posted_ts := Some "1700000000.000300" |}.

Definition answer (cid : JsVal) : ResponseData :=
  {| resp_response := Some "Hello!"; resp_conversation_id := cid |}.

(** A message of a person. *)
Definition human (ch txt t : string) (thread : option string) : Message :=
  {| channel := ch; user := Some "U1"; text := Some txt; ts := t;
     thread_ts := thread; subtype := None; bot_id := None;
     bot_profile := None |}.

(** A reply of a bot as the history returns it: the payload that was sent,
    with the [bot_id] of its author. *)
Definition botReply (id : string) : SlackMessage :=
  {| sm_text := Some "Hello!";
     sm_thread_ts := Some "1700000000.000100";
     sm_bot_id := Some "B1";
     sm_blocks := sm_blocks (createMessageWithConversationId
                               (Some "Hello!") (JsString id) "1700000000.000100");
     sm_unfurl_links := None;
     sm_unfurl_media := None |}.

Definition humanReply : SlackMessage :=
  {| sm_text := Some "and then?"; sm_thread_ts := Some "1700000000.000100";
     sm_bot_id := None; sm_blocks := None;
     sm_unfurl_links := None; sm_unfurl_media := None |}.

(** A reply in the thread anchored at 1700000000.000100. *)
Definition threadReply (t : string) : Message :=
  human "C1" "and then?" t (Some "1700000000.000100").

(** A mention of the bot at the root of channel C1. *)
Definition helloMention (t : string) : Message :=
  human "C1" "<@U09BR46BEV8> hello" t None.

(** The backend answers at once and names no conversation; the thread has
    no history. *)
Definition silentBackend : World :=
  scripted (Ok []) (Ok placeholder) [Ok (answer JsUndefined)] (Ok tt).

(** A thread in which the bot answered under the id A and, later, B. *)
Definition twoIdsHistory : list SlackMessage :=
  [botReply "A"; humanReply; botReply "B"].

Definition twoIdsWorld : World :=
  scripted (Ok twoIdsHistory) (Ok placeholder) [Ok (answer JsUndefined)] (Ok tt).

(** A thread in which the bot answered under the id abc-123. *)
Definition continuingWorld (supplied : JsVal) : World :=
  scripted (Ok [botReply "abc-123"; humanReply]) (Ok placeholder)
           [Ok (answer supplied)] (Ok tt).

(** The aside of the design's scenario, at the root of channel C1. *)
Definition aside : Message :=
  human "C1" "side note: ignore me" "1700000000.000100" None.

(** A mention of the bot that is an aside. *)
Definition asideMention : Message :=
  human "C1" "<@U09BR46BEV8> Side Note: fyi" "1700000000.000100" None.

(** A message in a group conversation, and one in a direct conversation. *)
Definition groupMessage : Message :=
  human "G024BE91L" "hello" "1700000000.000100" None.

Definition directMessage : Message :=
  human "D024BE91L" "hello" "1700000000.000100" None.

(** A block with the given [block_id]. *)
Definition blockWith (id : string) : Block :=
  {| block_type := "section"; block_id := Some id; block_text := None |}.

(** A bot message with three blocks, the second and the third tagged. *)
Definition layered : SlackMessage :=
  {| sm_text := None; sm_thread_ts := None; sm_bot_id := Some "B1";
     sm_blocks := Some ([blockWith "header"] ++
                        blockWith "conv_abc-123" :: [blockWith "conv_zzz"]);
     sm_unfurl_links := None; sm_unfurl_media := None |}.

(** A thread of 61 messages whose only reply of the bot is older than the
    50 most recent ones, and a platform that serves the 50 most recent. *)
Definition longThread : list SlackMessage :=
  repeat humanReply 10 ++ botReply "abc-123" :: repeat humanReply 50.

Definition windowWorld : World :=
  scripted (Ok (mostRecent 50 longThread)) (Ok placeholder)
           [Ok (answer JsUndefined)] (Ok tt).

(** The bearer token is set, the OpenRouter key is not. *)
Definition envNoKey : Env :=
  {| SLACK_CHANNEL_ID := Some "C1";
     MATT_GPT_API_URL_env := None;
     MATT_GPT_BEARER_TOKEN := Some "secret";
     OPENROUTER_API_KEY := None;
     SLACK_BOT_USER_ID := None |}.

(** Every request to the backend times out. *)
Definition downBackend : World :=
  scripted (Ok []) (Ok placeholder) [] (Ok tt).

(** The backend fails twice and then answers. *)
Definition flakyBackend : World :=
  scripted (Ok []) (Ok placeholder)
           [Throw timedOut; Throw timedOut; Ok (answer (JsString "abc-123"))]
           (Ok tt).

End Examples.

(** ** Properties *)

(** *** Strings *)

Lemma startsWith_app (p s : string) : startsWith (p ++ s) p = true.
Proof.
  unfold startsWith. induction p as [|c p IH]; simpl.
  - destruct s; reflexivity.
  - rewrite IH. destruct (ascii_dec c c) as [_|n]; [reflexivity|contradiction].
Qed.

Lemma drop_app (p s : string) : drop (String.length p) (p ++ s) = s.
Proof. induction p as [|c p IH]; simpl; [reflexivity|exact IH]. Qed.

Lemma replace_prefix (p s : string) : replace (p ++ s) p EmptyString = s.
Proof.
  destruct p as [|c p].
  - simpl. destruct s; reflexivity.
  - change (replace (String c p ++ s) (String c p) EmptyString)
      with (if startsWith (String c p ++ s) (String c p)
            then (EmptyString ++
                  drop (String.length (String c p)) (String c p ++ s))%string
            else String c (replace (p ++ s) (String c p) EmptyString)).
    rewrite startsWith_app, drop_app. reflexivity.
Qed.

(** *** The codec *)

(** C3. Round trip of the codec: for every reply text, every conversation
    id [I] and every thread anchor, [extractConversationId] applied to the
    message built by [createMessageWithConversationId] from [I] returns
    exactly [I]. *)
Theorem codec_round_trip (txt : option string) (I threadTs : string) :
  extractConversationId
    (createMessageWithConversationId txt (JsString I) threadTs) = JsString I.
Proof.
  unfold extractConversationId, createMessageWithConversationId.
  cbn [sm_blocks extractFromBlocks block_id truthyS toString].
  rewrite (startsWith_app "conv_" I), (replace_prefix "conv_" I).
  reflexivity.
Qed.

(** *** Traces *)

Lemma skipn_extension (tr new : Trace) : skipn (length tr) (tr ++ new) = new.
Proof. rewrite skipn_app, skipn_all, Nat.sub_diag. reflexivity. Qed.

Lemma events_app {A : Type} (c : M A) (tr new : Trace) :
  trace (c tr) = tr ++ new -> events c tr = new.
Proof. unfold events. intros ->. apply skipn_extension. Qed.

Lemma postsOf_app (a b : Trace) : postsOf (a ++ b) = postsOf a ++ postsOf b.
Proof.
  induction a as [|e a IH]; simpl; [reflexivity|].
  destruct e; simpl; rewrite IH; reflexivity.
Qed.

Lemma sleepsOf_app (a b : Trace) : sleepsOf (a ++ b) = sleepsOf a ++ sleepsOf b.
Proof.
  induction a as [|e a IH]; simpl; [reflexivity|].
  destruct e; simpl; rewrite IH; reflexivity.
Qed.

Lemma answersOf_app (a b : Trace) :
  answersOf (a ++ b) = answersOf a ++ answersOf b.
Proof.
  induction a as [|e a IH]; simpl; [reflexivity|].
  destruct e as [| |? []| |]; simpl; rewrite IH; reflexivity.
Qed.

Lemma repliesOf_app (a b : Trace) :
  repliesOf (a ++ b) = repliesOf a ++ repliesOf b.
Proof.
  induction a as [|e a IH]; simpl; [reflexivity|].
  destruct e; simpl; rewrite IH; reflexivity.
Qed.

Lemma placeholderOf_app (a b : Trace) :
  placeholderOf (a ++ b) =
  match placeholderOf a with
  | Some p => Some p
  | None => placeholderOf b
  end.
Proof.
  induction a as [|e a IH]; simpl; [reflexivity|].
  destruct e as [|args [posted|]| | |]; simpl; try exact IH.
  destruct (String.eqb (say_text args) thinkingText); [reflexivity|exact IH].
Qed.

Lemma resolved_app (p : option string) (a b : Trace) :
  resolved p (a ++ b) = resolved p a || resolved p b.
Proof. unfold resolved. apply existsb_app. Qed.

(** The events of the backend client are no answers handed to Slack, no
    placeholder and no edit. *)
Lemma backendOnly_quiet (p : option string) (be : Trace) :
  Forall (fun e => backendOnly e = true) be ->
  repliesOf be = [] /\ placeholderOf be = None /\ resolved p be = false.
Proof.
  induction 1 as [|e be He _ (IH1 & IH2 & IH3)]; [repeat split|].
  destruct e; try discriminate He; repeat split; assumption.
Qed.

Lemma historyFetch_quiet (w : World) (m : Message) (tr : Trace) (p : option string) :
  postsOf (historyFetch w m tr) = [] /\
  answersOf (historyFetch w m tr) = [] /\
  repliesOf (historyFetch w m tr) = [] /\
  placeholderOf (historyFetch w m tr) = None /\
  resolved p (historyFetch w m tr) = false.
Proof.
  unfold historyFetch. destruct (threadReplyAnchor m); repeat split.
Qed.

Lemma apology_not_thinking (e : JsError) :
  String.eqb (userMessageFor e) thinkingText = false.
Proof.
  unfold userMessageFor.
  destruct (includes (message e) "timeout"); [reflexivity|].
  destruct (includes (message e) "rate"); [reflexivity|].
  destruct (includes (message e) "API"); reflexivity.
Qed.

(** *** The backend client *)

Section Retry.

Variable env : Env.
Variable w : World.
Variable msg : option string.
Variable context : ApiContext.

Let req : PostReq := requestFor env msg context.

(** One iteration of the loop. *)
Lemma retryLoop_step (maxRetries fuel attempt : nat) (tr : Trace) :
  retryLoop env w (S fuel) attempt maxRetries msg context tr =
  match on_post w tr req with
  | Ok data => (Ok (Some data), tr ++ [EvPost req (Ok data)])
  | Throw error =>
    if attempt =? maxRetries then
      (Throw {| message :=
                  ("Matt-GPT API failed after " ++ ofNat maxRetries ++
                   " attempts: " ++ message error)%string |},
       tr ++ [EvPost req (Throw error)])
    else
      retryLoop env w fuel (attempt + 1) maxRetries msg context
        (tr ++ [EvPost req (Throw error); EvSleep (delayAfter attempt)])
  end.
Proof.
  cbn [retryLoop]. unfold bind, axios_post, setTimeout. fold req.
  destruct (on_post w tr req) as [data|error]; [reflexivity|].
  destruct (attempt =? maxRetries); [reflexivity|].
  rewrite <- app_assoc. reflexivity.
Qed.

(** What the loop adds to the trace from any value of [attempt] on: at most
    one request per value left, the delay [2 ^ k] seconds after the failed
    attempt [k], and on exhaustion the failed request last. *)
Lemma retryLoop_events (maxRetries fuel attempt : nat) (tr : Trace) :
  attempt + fuel = maxRetries + 1 ->
  exists new,
    trace (retryLoop env w fuel attempt maxRetries msg context tr) = tr ++ new /\
    length (postsOf new) <= fuel /\
    (0 < fuel -> 0 < length (postsOf new)) /\
    Forall (fun q => q = req) (postsOf new) /\
    Forall (fun e => backendOnly e = true) new /\
    sleepsOf new = map delayAfter (seq attempt (length (postsOf new) - 1)) /\
    match value (retryLoop env w fuel attempt maxRetries msg context tr) with
    | Ok (Some data) =>
      answersOf new = [data] /\ last new (EvSleep 0) = EvPost req (Ok data)
    | Ok None => fuel = 0
    | Throw e =>
      answersOf new = [] /\
      length (postsOf new) = fuel /\
      exists cause,
        last new (EvSleep 0) = EvPost req (Throw cause) /\
        message e = ("Matt-GPT API failed after " ++ ofNat maxRetries ++
                     " attempts: " ++ message cause)%string
    end.
Proof.
  revert attempt tr.
  induction fuel as [|fuel' IH]; intros attempt tr Hfuel.
  - exists []. simpl. rewrite app_nil_r.
    repeat split; try constructor; try lia.
  - cbn [retryLoop]. unfold bind, axios_post. fold req.
    destruct (on_post w tr req) as [data|error] eqn:Hpost.
    + exists [EvPost req (Ok data)]. simpl.
      repeat split; try lia; repeat constructor.
    + destruct (attempt =? maxRetries) eqn:Hlast.
      * apply Nat.eqb_eq in Hlast.
        exists [EvPost req (Throw error)]. simpl.
        repeat split; try lia; repeat constructor.
        exists error. split; reflexivity.
      * apply Nat.eqb_neq in Hlast.
        unfold setTimeout. fold (delayAfter attempt).
        destruct (IH (attempt + 1)
                     ((tr ++ [EvPost req (Throw error)]) ++ [EvSleep (delayAfter attempt)]))
          as (new & Htr & Hle & Hpos & Hall & Hback & Hsleep & Hval); [lia|].
        exists (EvPost req (Throw error) :: EvSleep (delayAfter attempt) :: new).
        assert (0 < length (postsOf new)) as Hnew by (apply Hpos; lia).
        split; [|split; [|split; [|split; [|split; [|split]]]]].
        -- rewrite Htr, <- !app_assoc. reflexivity.
        -- simpl. lia.
        -- simpl. lia.
        -- simpl. constructor; [reflexivity|exact Hall].
        -- repeat (constructor; [reflexivity|]). exact Hback.
        -- cbn [sleepsOf postsOf length]. rewrite Hsleep.
           replace (S (length (postsOf new)) - 1)
             with (S (length (postsOf new) - 1)) by lia.
           cbn [seq map]. replace (attempt + 1) with (S attempt) by lia.
           reflexivity.
        -- destruct new as [|e0 new0]; [simpl in Hnew; lia|].
           change (last (EvPost req (Throw error) ::
                         EvSleep (delayAfter attempt) :: e0 :: new0) (EvSleep 0))
             with (last (e0 :: new0) (EvSleep 0)).
           destruct (value (retryLoop env w fuel' (attempt + 1) maxRetries msg
                              context
                              ((tr ++ [EvPost req (Throw error)]) ++
                               [EvSleep (delayAfter attempt)])))
             as [[data|]|e]; try exact Hval.
           ++ lia.
           ++ destruct Hval as (Hans & Hlen & Hcause).
              split; [exact Hans|]. split; [|exact Hcause].
              cbn [postsOf length]. cbn [postsOf length] in Hlen. lia.
Qed.

End Retry.

(** C5. Retry policy of the backend client: [callMattGPTWithRetry] with
    three attempts sends at most 3 requests, each with its own timeout of
    30000 ms; after the failed attempt [k < 3] it waits [2 ^ k] seconds
    (2000 ms, then 4000 ms) before attempt [k + 1]; after the failure of the
    third attempt it throws at once, no delay following the last request,
    an error that carries the number of attempts and the message of the
    last cause; and a backend that fails twice and then answers gives that
    answer after exactly the two delays of 2 and 4 seconds. *)
Theorem retry_policy
    (env : Env) (w : World) (msg : option string) (context : ApiContext)
    (tr : Trace) :
  let req := requestFor env msg context in
  let run := callMattGPTWithRetry env w msg context 3 in
  let new := events run tr in
  length (postsOf new) <= 3 /\
  Forall (fun q => post_timeout q = 30000%Z) (postsOf new) /\
  sleepsOf new = firstn (length (postsOf new) - 1) [2000%Z; 4000%Z] /\
  match value (run tr) with
  | Throw e =>
    length (postsOf new) = 3 /\
    exists cause,
      last new (EvSleep 0) = EvPost req (Throw cause) /\
      message e = ("Matt-GPT API failed after 3 attempts: " ++
                   message cause)%string
  | Ok answer => exists data, answer = Some data /\
                              last new (EvSleep 0) = EvPost req (Ok data)
  end /\
  run tr =
    match on_post w tr req with
    | Ok data => (Ok (Some data), tr ++ [EvPost req (Ok data)])
    | Throw e1 =>
      let tr1 := tr ++ [EvPost req (Throw e1); EvSleep (2 ^ 1 * 1000)] in
      match on_post w tr1 req with
      | Ok data => (Ok (Some data), tr1 ++ [EvPost req (Ok data)])
      | Throw e2 =>
        let tr2 := tr1 ++ [EvPost req (Throw e2); EvSleep (2 ^ 2 * 1000)] in
        match on_post w tr2 req with
        | Ok data => (Ok (Some data), tr2 ++ [EvPost req (Ok data)])
        | Throw e3 =>
          (Throw {| message := ("Matt-GPT API failed after 3 attempts: " ++
                                message e3)%string |},
           tr2 ++ [EvPost req (Throw e3)])
        end
      end
    end.
Proof.
  intros req run new.
  destruct (retryLoop_events env w msg context 3 3 1 tr eq_refl)
    as (new' & Htr & Hle & _ & Hall & _ & Hsleep & Hval).
  assert (new = new') as Hnew by (apply events_app; exact Htr).
  rewrite Hnew. fold req in Hall, Hval.
  split; [exact Hle|].
  split.
  { eapply Forall_impl; [|exact Hall]. intros q ->. reflexivity. }
  split.
  { rewrite Hsleep.
    destruct (length (postsOf new')) as [|[|[|[|n]]]]; try reflexivity; lia. }
  split.
  { unfold run, callMattGPTWithRetry.
    destruct (value (retryLoop env w 3 1 3 msg context tr)) as [[data|]|e].
    - exists data. split; [reflexivity|apply Hval].
    - discriminate Hval.
    - apply Hval. }
  unfold run, callMattGPTWithRetry. cbv zeta.
  rewrite retryLoop_step. fold req.
  destruct (on_post w tr req) as [d1|e1]; [reflexivity|].
  cbn [Nat.eqb Nat.add]. rewrite retryLoop_step. fold req.
  change (delayAfter 1) with (2 ^ 1 * 1000)%Z.
  destruct (on_post w (tr ++ [EvPost req (Throw e1); EvSleep (2 ^ 1 * 1000)]) req)
    as [d2|e2]; [reflexivity|].
  cbn [Nat.eqb Nat.add]. rewrite retryLoop_step. fold req.
  change (delayAfter 2) with (2 ^ 2 * 1000)%Z.
  destruct (on_post w
              ((tr ++ [EvPost req (Throw e1); EvSleep (2 ^ 1 * 1000)]) ++
               [EvPost req (Throw e2); EvSleep (2 ^ 2 * 1000)]) req)
    as [d3|e3]; reflexivity.
Qed.

(** The backend fails twice and answers the third request: the answer,
    after the delays of 2 and 4 seconds. *)
Example retry_scenario :
  let context := contextFor (Examples.helloMention "1700000000.000100") JsNull in
  let run := callMattGPTWithRetry Examples.env1 Examples.flakyBackend
               (Some "hello") context 3 [] in
  value run = Ok (Some (Examples.answer (JsString "abc-123"))) /\
  sleepsOf (trace run) = [2000%Z; 4000%Z] /\
  length (postsOf (trace run)) = 3.
Proof. repeat split. Qed.

(** *** The history reconstructor *)

Lemma scanForConversationId_find (msgs : list SlackMessage) :
  scanForConversationId msgs =
  match find embedsId msgs with
  | Some m => extractConversationId m
  | None => JsNull
  end.
Proof.
  induction msgs as [|m rest IH]; [reflexivity|].
  cbn [scanForConversationId find]. unfold embedsId at 1.
  destruct (truthyS (sm_bot_id m)); cbn [andb]; [|exact IH].
  destruct (truthy (extractConversationId m)); [reflexivity|exact IH].
Qed.

Lemma find_none_forall {A : Type} (f : A -> bool) (l : list A) :
  (forall x, In x l -> f x = false) -> find f l = None.
Proof.
  induction l as [|a l IH]; intros H; [reflexivity|].
  cbn [find]. rewrite (H a (or_introl eq_refl)).
  apply IH. intros x Hx. apply H. right. exact Hx.
Qed.

Lemma hasBotMessages_false (messages : list SlackMessage) :
  hasBotMessages messages = false ->
  forall m, In m messages -> truthyS (sm_bot_id m) = false.
Proof.
  unfold hasBotMessages. intros H m Hm.
  destruct (truthyS (sm_bot_id m)) eqn:Hb; [|reflexivity].
  assert (existsb (fun msg => truthyS (sm_bot_id msg)) messages = true) as Hex
    by (apply existsb_exists; exists m; split; assumption).
  rewrite H in Hex. discriminate Hex.
Qed.

Lemma scan_without_bot (messages : list SlackMessage) :
  hasBotMessages messages = false ->
  scanForConversationId (List.rev messages) = JsNull.
Proof.
  intros H. rewrite scanForConversationId_find, find_none_forall; [reflexivity|].
  intros m Hm. apply in_rev in Hm. unfold embedsId.
  rewrite (hasBotMessages_false messages H m Hm). reflexivity.
Qed.

(** The run of the history reconstructor: one fetch, then the scan. *)
Lemma locateConversation_run
    (w : World) (channelId threadTs : string) (tr : Trace) :
  let req := {| rq_channel := channelId; rq_ts := threadTs; rq_limit := 50 |} in
  let res := on_replies w tr req in
  locateConversation w channelId threadTs tr =
  (match res with
   | Ok messages => scanForConversationId (List.rev messages)
   | Throw _ => JsNull
   end, tr ++ [EvReplies req res]).
Proof.
  intros req res.
  unfold locateConversation, bind, conversations_replies, ret.
  fold req. fold res. destruct res; reflexivity.
Qed.

(** **** The decoder of the source and the rule of the design *)

Lemma prefix_split (p s : string) :
  String.prefix p s = true -> s = (p ++ drop (String.length p) s)%string.
Proof.
  revert s. induction p as [|a p IH]; intros s H; [reflexivity|].
  destruct s as [|b s]; [discriminate H|].
  cbn [String.prefix] in H.
  destruct (ascii_dec a b) as [->|_]; [|discriminate H].
  cbn [String.append String.length drop]. rewrite <- (IH s H). reflexivity.
Qed.

Lemma substring_all (s : string) : String.substring 0 (String.length s) s = s.
Proof. induction s as [|c s IH]; [reflexivity|]. simpl. rewrite IH. reflexivity. Qed.

Lemma substring_skip (p s : string) (n : nat) :
  String.substring (String.length p) n (p ++ s) = String.substring 0 n s.
Proof. induction p as [|c p IH]; [reflexivity|]. simpl. exact IH. Qed.

Lemma length_tagged (p s : string) :
  String.length (p ++ s) - String.length p = String.length s.
Proof. induction p as [|c p IH]; simpl; [lia|exact IH]. Qed.

(** Cutting five characters off a tagged identifier is removing the tag. *)
Lemma cut_is_replace (id : string) :
  String.prefix "conv_" id = true ->
  String.substring 5 (String.length id - 5) id = replace id "conv_" EmptyString.
Proof.
  intros H. apply prefix_split in H.
  set (rest := drop (String.length "conv_") id) in H. rewrite H.
  rewrite (replace_prefix "conv_" rest).
  change 5 with (String.length "conv_").
  rewrite length_tagged, substring_skip. apply substring_all.
Qed.

Lemma carriesTag_test (block : Block) :
  truthyS (block_id block) &&
  match block_id block with
  | Some id => startsWith id "conv_"
  | None => false
  end = carriesTag block.
Proof.
  unfold carriesTag, startsWith. destruct (block_id block) as [id|]; [|reflexivity].
  destruct id; reflexivity.
Qed.

Lemma extractFromBlocks_rule (blocks : list Block) :
  extractFromBlocks blocks =
  match find carriesTag blocks with
  | Some block =>
    match option_map (fun id => String.substring 5 (String.length id - 5) id)
                     (block_id block) with
    | Some id => JsString id
    | None => JsNull
    end
  | None => JsNull
  end.
Proof.
  induction blocks as [|block rest IH]; [reflexivity|].
  cbn [extractFromBlocks find]. rewrite carriesTag_test.
  destruct (carriesTag block) eqn:Htag; [|exact IH].
  unfold carriesTag in Htag.
  destruct (block_id block) as [id|]; [|discriminate Htag].
  cbn [option_map]. rewrite (cut_is_replace id Htag). reflexivity.
Qed.

(** The decoder of the source computes the rule of the design. *)
Lemma extract_is_specDecode (m : SlackMessage) :
  extractConversationId m =
  match specDecode m with
  | Some id => JsString id
  | None => JsNull
  end.
Proof.
  unfold extractConversationId, specDecode.
  destruct (sm_blocks m) as [blocks|]; [|reflexivity].
  rewrite extractFromBlocks_rule.
  destruct (find carriesTag blocks); reflexivity.
Qed.

Lemma scan_is_specLocate (window : list SlackMessage) :
  scanForConversationId (List.rev window) = specLocate window.
Proof.
  unfold specLocate. generalize (List.rev window) as msgs.
  induction msgs as [|msg rest IH]; [reflexivity|].
  cbn [scanForConversationId find]. unfold specEmbeds at 1.
  rewrite (extract_is_specDecode msg).
  destruct (truthyS (sm_bot_id msg)); cbn [andb]; [|exact IH].
  destruct (specDecode msg) as [id|] eqn:Hdecode; cbn [truthy]; [|exact IH].
  destruct (negb (isEmpty id)); [rewrite Hdecode; reflexivity|exact IH].
Qed.

Lemma mostRecent_length (n : nat) (thread : list SlackMessage) :
  length (mostRecent n thread) <= n.
Proof. unfold mostRecent. rewrite length_skipn. lia. Qed.

(** C4. Locating the conversation: [locateConversation] makes one fetch of
    the thread's replies with [limit] 50; it scans what the fetch returns
    from the most recent message to the oldest and returns the id that the
    decoding rule of the design gives for the first bot-authored message
    that embeds one; it returns [null], and never throws, when the fetch
    fails and when no bot message of the window embeds an id, and so for
    every thread that has no bot message.  On a platform that answers a
    fetch with limit [n] by the [n] most recent messages of the thread,
    the messages scanned are at most the 50 most recent ones, and what is
    older plays no part. *)
Theorem locateConversation_spec
    (w : World) (channelId threadTs : string) (tr : Trace) :
  let req := {| rq_channel := channelId; rq_ts := threadTs; rq_limit := 50 |} in
  let res := on_replies w tr req in
  let found := value (locateConversation w channelId threadTs tr) in
  events (locateConversation w channelId threadTs) tr = [EvReplies req res] /\
  found =
    match res with
    | Throw _ => JsNull
    | Ok messages => specLocate messages
    end /\
  match res with
  | Throw _ => True
  | Ok messages => if hasBotMessages messages then True else found = JsNull
  end /\
  (forall older recent,
      length recent = 50 ->
      res = Ok (mostRecent (rq_limit req) (older ++ recent)) ->
      found = specLocate recent) /\
  (forall thread,
      res = Ok (mostRecent (rq_limit req) thread) ->
      length (mostRecent (rq_limit req) thread) <= 50 /\
      found = specLocate (mostRecent 50 thread)).
Proof.
  intros req res found.
  pose proof (locateConversation_run w channelId threadTs tr) as Hrun.
  cbv zeta in Hrun. fold req in Hrun. fold res in Hrun.
  assert (found = match res with
                  | Throw _ => JsNull
                  | Ok messages => specLocate messages
                  end) as Hfound.
  { unfold found. rewrite Hrun. unfold value. cbn [fst].
    destruct res as [messages|e]; [|reflexivity].
    apply scan_is_specLocate. }
  split; [apply events_app; rewrite Hrun; reflexivity|].
  split; [exact Hfound|].
  split; [|split].
  - unfold found. rewrite Hrun. unfold value. cbn [fst].
    destruct res as [messages|e]; [|exact I].
    destruct (hasBotMessages messages) eqn:Hbot; [exact I|].
    apply scan_without_bot. exact Hbot.
  - intros older recent Hlen Hres. rewrite Hfound, Hres.
    cbn [rq_limit req]. unfold mostRecent.
    rewrite length_app, Hlen, Nat.add_sub, skipn_app, skipn_all, Nat.sub_diag.
    reflexivity.
  - intros thread Hres. split; [apply mostRecent_length|].
    rewrite Hfound, Hres. reflexivity.
Qed.

Lemma locateConversation_spec_witness :
  on_replies Examples.windowWorld []
    {| rq_channel := "C1"; rq_ts := "1700000000.000100"; rq_limit := 50 |} =
  Ok (mostRecent 50 Examples.longThread) /\
  length (mostRecent 50 Examples.longThread) <= 50 /\
  value (locateConversation Examples.windowWorld "C1" "1700000000.000100" []) =
  JsNull.
Proof.
  split; [reflexivity|].
  exact (proj2 (proj2 (proj2 (proj2
           (locateConversation_spec Examples.windowWorld
              "C1" "1700000000.000100" []))))
           Examples.longThread eq_refl).
Defined.

(** *** The turn *)

Section Turn.

Variable env : Env.
Variable w : World.
Variable m : Message.
Variable tr : Trace.

Hypothesis Hconfigured : configured env = true.
Hypothesis Hnote : startsWithSideNote (cleanMessageText (text m)) = false.

(** The run of a configured turn that is no side note, step by step. *)
Lemma processMessageRequest_run :
  let cid := locatedId w m tr in
  let tr1 := tr ++ historyFetch w m tr in
  let call :=
    callMattGPTWithRetry env w (cleanMessageText (text m)) (contextFor m cid) 3
      (tr1 ++ [EvSay (thinkingArgs m) (on_say w tr1 (thinkingArgs m))]) in
  processMessageRequest env w m tr =
  match on_say w tr1 (thinkingArgs m) with
  | Throw e =>
    let tr2 := tr1 ++ [EvSay (thinkingArgs m) (Throw e)] in
    (Failed e, tr2 ++ [sayEvent w tr2 (apologyArgs m e)])
  | Ok posted =>
    match value call with
    | Throw e => (Failed e, trace call ++ [sayEvent w (trace call) (apologyArgs m e)])
    | Ok None =>
      (Failed undefinedResponse,
       trace call ++ [sayEvent w (trace call) (apologyArgs m undefinedResponse)])
    | Ok (Some data) =>
      let upd := updateFor m posted data cid in
      match on_update w (trace call) upd with
      | Ok u => (Delivered, trace call ++ [EvUpdate upd (Ok u)])
      | Throw e =>
        let tr3 := trace call ++ [EvUpdate upd (Throw e)] in
        (Failed e, tr3 ++ [sayEvent w tr3 (apologyArgs m e)])
      end
    end
  end.
Proof.
  unfold configured in Hconfigured. apply andb_prop in Hconfigured.
  destruct Hconfigured as [Htoken Hkey].
  unfold processMessageRequest. rewrite Hnote.
  unfold tryTurn. rewrite Htoken, Hkey. cbn [negb].
  unfold locatedId, historyFetch.
  unfold bind, tryBind, bind, say, chat_update, ok, throw, ret, sayEvent,
    locateConversation, bind, conversations_replies, ret, value, trace.
  fold (anchorOf m). fold (thinkingArgs m).
  destruct (threadReplyAnchor m) as [t|]; cbv zeta; cbn [fst snd].
  - destruct (on_replies w tr {| rq_channel := channel m; rq_ts := t; rq_limit := 50 |})
      as [messages|e0]; cbn [fst snd].
    + destruct (on_say w _ (thinkingArgs m)) as [posted|e]; [|reflexivity].
      fold (contextFor m (scanForConversationId (List.rev messages))).
      destruct (callMattGPTWithRetry _ _ _ _ _ _) as [[[data|]|e] tr3];
        cbn [fst snd]; try reflexivity.
      fold (updateFor m posted data (scanForConversationId (List.rev messages))).
      destruct (on_update w tr3 _) as [[]|e]; reflexivity.
    + destruct (on_say w _ (thinkingArgs m)) as [posted|e]; [|reflexivity].
      fold (contextFor m JsNull).
      destruct (callMattGPTWithRetry _ _ _ _ _ _) as [[[data|]|e] tr3];
        cbn [fst snd]; try reflexivity.
      fold (updateFor m posted data JsNull).
      destruct (on_update w tr3 _) as [[]|e]; reflexivity.
  - rewrite app_nil_r.
    destruct (on_say w _ (thinkingArgs m)) as [posted|e]; [|reflexivity].
    fold (contextFor m JsNull).
    destruct (callMattGPTWithRetry _ _ _ _ _ _) as [[[data|]|e] tr3];
      cbn [fst snd]; try reflexivity.
    fold (updateFor m posted data JsNull).
    destruct (on_update w tr3 _) as [[]|e]; reflexivity.
Qed.

(** What a configured turn that is no side note adds to the trace: the
    history fetch of a thread reply, the placeholder, the requests and
    delays of the backend client, and then the edit of the placeholder or
    an apology. *)
Lemma turn_events :
  let cid := locatedId w m tr in
  let req := requestFor env (cleanMessageText (text m)) (contextFor m cid) in
  let new := events (processMessageRequest env w m) tr in
  let out := value (processMessageRequest env w m tr) in
  (exists e a,
      new = historyFetch w m tr ++
            [EvSay (thinkingArgs m) (Throw e); EvSay (apologyArgs m e) a] /\
      out = Failed e) \/
  (exists posted be tail,
      new = historyFetch w m tr ++
            EvSay (thinkingArgs m) (Ok posted) :: be ++ tail /\
      Forall (fun e => backendOnly e = true) be /\
      0 < length (postsOf be) /\
      Forall (fun q => q = req) (postsOf be) /\
      ((exists data,
           answersOf be = [data] /\
           tail = [EvUpdate (updateFor m posted data cid) (Ok tt)] /\
           out = Delivered) \/
       (exists data e a,
           answersOf be = [data] /\
           tail = [EvUpdate (updateFor m posted data cid) (Throw e);
                   EvSay (apologyArgs m e) a] /\
           out = Failed e) \/
       (exists e a,
           answersOf be = [] /\
           tail = [EvSay (apologyArgs m e) a] /\ out = Failed e))).
Proof.
  intros cid req new out.
  pose proof processMessageRequest_run as Hrun. cbv zeta in Hrun.
  fold cid in Hrun.
  unfold new, out, events. rewrite Hrun. clear Hrun.
  set (tr1 := tr ++ historyFetch w m tr).
  destruct (on_say w tr1 (thinkingArgs m)) as [posted|e].
  2:{ left. exists e. eexists. split; [|reflexivity].
      unfold tr1, sayEvent, trace. cbn [snd].
      rewrite <- !app_assoc. rewrite skipn_extension. reflexivity. }
  right.
  destruct (retryLoop_events env w (cleanMessageText (text m)) (contextFor m cid)
              3 3 1 (tr1 ++ [EvSay (thinkingArgs m) (Ok posted)]) eq_refl)
    as (be & Htr & _ & Hpos & Hall & Hback & _ & Hval).
  fold req in Hall, Hval.
  change (retryLoop env w 3 1 3 (cleanMessageText (text m)) (contextFor m cid))
    with (callMattGPTWithRetry env w (cleanMessageText (text m)) (contextFor m cid) 3)
    in Htr, Hval.
  assert (0 < length (postsOf be)) as Hposts by (apply Hpos; lia).
  assert (be <> []) as Hne by (intros ->; simpl in Hposts; lia).
  exists posted, be.
  destruct (value (callMattGPTWithRetry env w (cleanMessageText (text m))
                     (contextFor m cid) 3
                     (tr1 ++ [EvSay (thinkingArgs m) (Ok posted)])))
    as [[data|]|e].
  - destruct Hval as [Hin _].
    rewrite Htr.
    destruct (on_update w _ (updateFor m posted data cid)) as [[]|e].
    + eexists. split; [|repeat split; try assumption].
      * unfold tr1, trace. cbn [snd].
        rewrite <- !app_assoc. rewrite skipn_extension. reflexivity.
      * left. exists data. repeat split. exact Hin.
    + eexists. split; [|repeat split; try assumption].
      * unfold tr1, trace, sayEvent. cbn [snd].
        rewrite <- !app_assoc. rewrite skipn_extension. reflexivity.
      * right. left. exists data, e. eexists. repeat split. exact Hin.
  - discriminate Hval.
  - rewrite Htr. eexists. split; [|repeat split; try assumption].
    + unfold tr1, trace, sayEvent. cbn [snd].
      rewrite <- !app_assoc. rewrite skipn_extension. reflexivity.
    + right. right. exists e. eexists. repeat split. apply Hval.
Qed.

End Turn.

(** A turn that stops at the side note test or at a missing credential
    sends nothing to the backend, posts no placeholder and composes no
    reply. *)
Lemma quiet_turn (env : Env) (w : World) (m : Message) (tr : Trace) :
  startsWithSideNote (cleanMessageText (text m)) = true \/
  configured env = false ->
  let new := events (processMessageRequest env w m) tr in
  postsOf new = [] /\ answersOf new = [] /\ repliesOf new = [] /\
  placeholderOf new = None.
Proof.
  intros Hquiet new. unfold new, events, processMessageRequest.
  destruct (startsWithSideNote (cleanMessageText (text m))) eqn:Hnote.
  { unfold ret, trace. cbn [snd]. rewrite skipn_all. repeat split. }
  destruct Hquiet as [Habs|Hconf]; [discriminate Habs|].
  unfold configured in Hconf. unfold tryTurn.
  destruct (truthyS (MATT_GPT_BEARER_TOKEN env)); cbn [negb].
  - cbn [andb] in Hconf. rewrite Hconf. cbn [negb].
    unfold bind, tryBind, bind, say, ok, ret, trace.
    destruct (on_say w tr _) as [posted|e]; cbn [snd].
    + rewrite skipn_extension. repeat split.
    + rewrite <- app_assoc, skipn_extension. cbn [app].
      repeat split.
      cbn [placeholderOf say_text]. cbn.
      destruct (on_say w _ _); [|reflexivity].
      rewrite apology_not_thinking. reflexivity.
  - unfold bind, tryBind, bind, say, ok, ret, trace.
    destruct (on_say w tr _) as [posted|e]; cbn [snd].
    + rewrite skipn_extension. repeat split.
    + rewrite <- app_assoc, skipn_extension. cbn [app].
      repeat split.
      cbn [placeholderOf say_text]. cbn.
      destruct (on_say w _ _); [|reflexivity].
      rewrite apology_not_thinking. reflexivity.
Qed.

(** The reply that answers a backend answer: the one payload handed to
    [chat.update], built from the answer and the located id. *)
Lemma reply_of_answer
    (env : Env) (w : World) (m : Message) (tr : Trace) (data : ResponseData) :
  In data (answersOf (events (processMessageRequest env w m) tr)) ->
  exists posted,
    repliesOf (events (processMessageRequest env w m) tr) =
    [upd_payload (updateFor m posted data (locatedId w m tr))].
Proof.
  intros Hin.
  destruct (startsWithSideNote (cleanMessageText (text m))) eqn:Hnote.
  { destruct (quiet_turn env w m tr (or_introl Hnote)) as (_ & Hans & _).
    rewrite Hans in Hin. destruct Hin. }
  destruct (configured env) eqn:Hconf.
  2:{ destruct (quiet_turn env w m tr (or_intror Hconf)) as (_ & Hans & _).
      rewrite Hans in Hin. destruct Hin. }
  destruct (historyFetch_quiet w m tr None) as (_ & Hh1 & Hh2 & _).
  destruct (turn_events env w m tr Hconf Hnote)
    as [(e & a & Hnew & _)|(posted & be & tail & Hnew & Hback & _ & _ & Hcases)].
  - rewrite Hnew, answersOf_app, Hh1 in Hin. destruct Hin.
  - destruct (backendOnly_quiet None be Hback) as (Hb1 & _).
    rewrite Hnew in Hin |- *.
    change (EvSay (thinkingArgs m) (Ok posted) :: be ++ tail)
      with ([EvSay (thinkingArgs m) (Ok posted)] ++ be ++ tail) in Hin |- *.
    rewrite !answersOf_app, Hh1 in Hin. rewrite !repliesOf_app, Hh2, Hb1.
    cbn [answersOf repliesOf app] in Hin |- *.
    destruct Hcases as [(d & Hans & -> & _)|[(d & e & a & Hans & -> & _)|(e & a & Hans & -> & _)]];
      rewrite Hans in Hin; cbn [answersOf app] in Hin.
    + destruct Hin as [<-|[]]. exists posted. reflexivity.
    + destruct Hin as [<-|[]]. exists posted. reflexivity.
    + destruct Hin.
Qed.

(** The id that a composed reply embeds. *)
Lemma reply_embeds (m : Message) (posted : SayResp) (data : ResponseData)
    (located : JsVal) :
  extractConversationId (upd_payload (updateFor m posted data located)) =
  JsString (toString (orElse (resp_conversation_id data) located)).
Proof.
  unfold updateFor, upd_payload, extractConversationId,
    createMessageWithConversationId.
  cbn [sm_blocks extractFromBlocks block_id truthyS].
  rewrite (startsWith_app "conv_"), (replace_prefix "conv_"). reflexivity.
Qed.

Lemma toString_truthy (v : JsVal) : truthy v = true -> JsString (toString v) = v.
Proof. destruct v; simpl; intros H; try discriminate H; reflexivity. Qed.

Lemma scan_null_or_truthy (msgs : list SlackMessage) :
  scanForConversationId msgs = JsNull \/
  truthy (scanForConversationId msgs) = true.
Proof.
  induction msgs as [|msg rest IH]; [left; reflexivity|].
  cbn [scanForConversationId].
  destruct (truthyS (sm_bot_id msg)); [|exact IH].
  destruct (truthy (extractConversationId msg)) eqn:Hid; [right; exact Hid|exact IH].
Qed.

Lemma located_null_or_truthy (w : World) (m : Message) (tr : Trace) :
  locatedId w m tr = JsNull \/ truthy (locatedId w m tr) = true.
Proof.
  unfold locatedId. destruct (threadReplyAnchor m) as [t|]; [|left; reflexivity].
  pose proof (locateConversation_run w (channel m) t tr) as Hrun.
  cbv zeta in Hrun. rewrite Hrun. unfold value. cbn [fst].
  destruct (on_replies w tr _); [apply scan_null_or_truthy|left; reflexivity].
Qed.

(** C2 (amended). On a successful backend call the turn composes one
    reply, and the conversation id it embeds is [supplied || located]: its
    hidden block id is the tag followed by the id of the backend's answer
    when the answer carries a non-empty one, otherwise by the id recovered
    from the thread history when one was located.  The bridge mints no id
    of its own: when neither is there, the located id is [null] and the
    block id is the tag followed by the text [null]. *)
Theorem reply_conversation_id
    (env : Env) (w : World) (m : Message) (tr : Trace) (data : ResponseData) :
  In data (answersOf (events (processMessageRequest env w m) tr)) ->
  let supplied := resp_conversation_id data in
  let located := locatedId w m tr in
  exists reply,
    repliesOf (events (processMessageRequest env w m) tr) = [reply] /\
    option_map (map block_id) (sm_blocks reply) =
      Some [Some ("conv_" ++
                  toString (if truthy supplied then supplied else located))%string] /\
    extractConversationId reply =
      (if truthy supplied then supplied
       else if truthy located then located
       else JsString "null") /\
    (located = JsNull \/ truthy located = true).
Proof.
  intros Hin supplied located.
  destruct (reply_of_answer env w m tr data Hin) as [posted Hreply].
  eexists. split; [exact Hreply|].
  split; [reflexivity|].
  split; [|apply located_null_or_truthy].
  rewrite reply_embeds. fold supplied. fold located. unfold orElse.
  destruct (truthy supplied) eqn:Hs; [apply toString_truthy; exact Hs|].
  destruct (located_null_or_truthy w m tr) as [Hnull|Htruthy];
    fold located in Hnull || fold located in Htruthy.
  - rewrite Hnull. reflexivity.
  - rewrite Htruthy. apply toString_truthy. exact Htruthy.
Qed.

(** The scenario of a new conversation: the bot is mentioned at the root of
    the monitored channel, nothing is located, the backend is called
    without a conversation id. *)
Example new_conversation_request :
  map post_conversation_id
    (postsOf (events (appMentionHandler Examples.env1 Examples.silentBackend
                        (Examples.helloMention "1700000000.000100")) [])) =
  [None].
Proof. vm_compute. reflexivity. Qed.

(** C2, as stated, fails: in two new conversations for which neither the
    backend nor the history supplies an id, the replies embed the same
    text, the rendering of [null], and no fresh id. *)
Lemma new_conversation_id_not_fresh :
  ts (Examples.helloMention "1700000000.000100") <>
  ts (Examples.helloMention "1700000000.000900") /\
  map extractConversationId
    (repliesOf (events (appMentionHandler Examples.env1 Examples.silentBackend
                          (Examples.helloMention "1700000000.000100")) [])) =
  [JsString "null"] /\
  map extractConversationId
    (repliesOf (events (appMentionHandler Examples.env1 Examples.silentBackend
                          (Examples.helloMention "1700000000.000900")) [])) =
  [JsString "null"].
Proof.
  split; [discriminate|]. split; vm_compute; reflexivity.
Qed.

Lemma reply_conversation_id_witness :
  In (Examples.answer JsUndefined)
     (answersOf (events (processMessageRequest Examples.env1
                           (Examples.continuingWorld JsUndefined)
                           (Examples.threadReply "1700000000.000400")) [])) /\
  exists reply,
    repliesOf (events (processMessageRequest Examples.env1
                         (Examples.continuingWorld JsUndefined)
                         (Examples.threadReply "1700000000.000400")) []) =
    [reply] /\
    option_map (map block_id) (sm_blocks reply) = Some [Some "conv_abc-123"] /\
    extractConversationId reply = JsString "abc-123" /\
    (locatedId (Examples.continuingWorld JsUndefined)
       (Examples.threadReply "1700000000.000400") [] = JsNull \/
     truthy (locatedId (Examples.continuingWorld JsUndefined)
               (Examples.threadReply "1700000000.000400") []) = true).
Proof.
  assert (In (Examples.answer JsUndefined)
             (answersOf (events (processMessageRequest Examples.env1
                                   (Examples.continuingWorld JsUndefined)
                                   (Examples.threadReply "1700000000.000400")) [])))
    as Hin by (vm_compute; left; reflexivity).
  split; [exact Hin|].
  exact (reply_conversation_id Examples.env1 (Examples.continuingWorld JsUndefined)
           (Examples.threadReply "1700000000.000400") [] _ Hin).
Defined.

(** *** Continuity *)

(** C1, as stated, fails: the fetched history of the thread contains a
    bot-authored message that embeds the id A, the backend supplies no id,
    and yet the reply composed for the admitted thread reply embeds B, the
    id of a more recent bot message. *)
Lemma continuity_older_id_not_kept :
  on_replies Examples.twoIdsWorld []
    {| rq_channel := "C1"; rq_ts := "1700000000.000100"; rq_limit := 50 |} =
  Ok Examples.twoIdsHistory /\
  In (Examples.botReply "A") Examples.twoIdsHistory /\
  truthyS (sm_bot_id (Examples.botReply "A")) = true /\
  extractConversationId (Examples.botReply "A") = JsString "A" /\
  map resp_conversation_id
    (answersOf (events (messageHandler Examples.env1 Examples.twoIdsWorld
                          (Examples.threadReply "1700000000.000400")) [])) =
  [JsUndefined] /\
  map extractConversationId
    (repliesOf (events (messageHandler Examples.env1 Examples.twoIdsWorld
                          (Examples.threadReply "1700000000.000400")) [])) =
  [JsString "B"].
Proof.
  split; [reflexivity|]. split; [left; reflexivity|].
  repeat split; vm_compute; reflexivity.
Qed.

(** C1 (amended). Continuity: for every thread reply whose fetched thread
    history has, as its most recent bot-authored message that embeds an
    id, a message embedding [I], the reply composed for the turn embeds
    [I], unless the backend's answer supplies an id of its own, which is
    embedded instead; so a reply carries the id that the latest bot reply
    of the thread carries whenever the backend supplies none or the same. *)
Theorem continuity
    (env : Env) (w : World) (m : Message) (tr : Trace)
    (t : string) (messages : list SlackMessage) (b : SlackMessage)
    (data : ResponseData) :
  threadReplyAnchor m = Some t ->
  on_replies w tr {| rq_channel := channel m; rq_ts := t; rq_limit := 50 |} =
    Ok messages ->
  find embedsId (List.rev messages) = Some b ->
  In data (answersOf (events (processMessageRequest env w m) tr)) ->
  let I := extractConversationId b in
  let supplied := resp_conversation_id data in
  exists reply,
    repliesOf (events (processMessageRequest env w m) tr) = [reply] /\
    extractConversationId reply = (if truthy supplied then supplied else I) /\
    (truthy supplied = false \/ supplied = I -> extractConversationId reply = I).
Proof.
  intros Hanchor Hfetch Hfind Hin I supplied.
  assert (locatedId w m tr = I) as Hlocated.
  { unfold locatedId. rewrite Hanchor.
    pose proof (locateConversation_run w (channel m) t tr) as Hrun.
    cbv zeta in Hrun. rewrite Hrun, Hfetch. unfold value. cbn [fst].
    rewrite scanForConversationId_find, Hfind. reflexivity. }
  assert (truthy I = true) as Htruthy.
  { apply find_some in Hfind. destruct Hfind as [_ Hembeds].
    unfold embedsId in Hembeds. apply andb_prop in Hembeds. apply Hembeds. }
  destruct (reply_of_answer env w m tr data Hin) as [posted Hreply].
  eexists. split; [exact Hreply|].
  rewrite reply_embeds, Hlocated. fold supplied. unfold orElse.
  assert (JsString (toString (if truthy supplied then supplied else I)) =
          (if truthy supplied then supplied else I)) as Heq.
  { destruct (truthy supplied) eqn:Hs; apply toString_truthy; assumption. }
  split; [exact Heq|].
  intros [Hnone|Hsame]; rewrite Heq.
  - rewrite Hnone. reflexivity.
  - rewrite Hsame. destruct (truthy I); reflexivity.
Qed.

Lemma continuity_witness :
  threadReplyAnchor (Examples.threadReply "1700000000.000400") =
    Some "1700000000.000100" /\
  on_replies (Examples.continuingWorld JsUndefined) []
    {| rq_channel := channel (Examples.threadReply "1700000000.000400");
       rq_ts := "1700000000.000100"; rq_limit := 50 |} =
    Ok [Examples.botReply "abc-123"; Examples.humanReply] /\
  find embedsId (List.rev [Examples.botReply "abc-123"; Examples.humanReply]) =
    Some (Examples.botReply "abc-123") /\
  In (Examples.answer JsUndefined)
     (answersOf (events (processMessageRequest Examples.env1
                           (Examples.continuingWorld JsUndefined)
                           (Examples.threadReply "1700000000.000400")) [])) /\
  exists reply,
    repliesOf (events (processMessageRequest Examples.env1
                         (Examples.continuingWorld JsUndefined)
                         (Examples.threadReply "1700000000.000400")) []) =
    [reply] /\
    extractConversationId reply = JsString "abc-123" /\
    (false = false \/ JsUndefined = JsString "abc-123" ->
     extractConversationId reply = JsString "abc-123").
Proof.
  assert (In (Examples.answer JsUndefined)
             (answersOf (events (processMessageRequest Examples.env1
                                   (Examples.continuingWorld JsUndefined)
                                   (Examples.threadReply "1700000000.000400")) [])))
    as Hin by (vm_compute; left; reflexivity).
  split; [reflexivity|]. split; [reflexivity|]. split; [reflexivity|].
  split; [exact Hin|].
  exact (continuity Examples.env1 (Examples.continuingWorld JsUndefined)
           (Examples.threadReply "1700000000.000400") []
           "1700000000.000100" [Examples.botReply "abc-123"; Examples.humanReply]
           (Examples.botReply "abc-123") (Examples.answer JsUndefined)
           eq_refl eq_refl eq_refl Hin).
Defined.

(** The backend's id wins over the located one: last call wins. *)
Example backend_id_overrides :
  map extractConversationId
    (repliesOf (events (processMessageRequest Examples.env1
                          (Examples.continuingWorld (JsString "xyz-789"))
                          (Examples.threadReply "1700000000.000400")) [])) =
  [JsString "xyz-789"].
Proof. vm_compute. reflexivity. Qed.

(** *** The placeholder *)

Lemma eqbTs_refl (p : option string) : eqbTs p p = true.
Proof. destruct p as [x|]; simpl; [apply String.eqb_refl|reflexivity]. Qed.

Lemma last_app_tail {A : Type} (l l' : list A) (d : A) :
  l' <> [] -> last (l ++ l') d = last l' d.
Proof.
  intros Hne. induction l as [|a l IH]; [reflexivity|].
  rewrite <- IH. cbn [app]. destruct (l ++ l') as [|x r] eqn:Happ.
  - apply app_eq_nil in Happ. destruct Happ as [_ Hnil]. contradiction.
  - reflexivity.
Qed.

(** C6, as stated, fails: the placeholder is posted, every attempt of the
    backend client fails, and the turn ends with an apology posted as a
    message of its own; the placeholder is never edited. *)
Lemma placeholder_left_unresolved :
  placeholderOf
    (events (processMessageRequest Examples.env1 Examples.downBackend
               (Examples.helloMention "1700000000.000100")) []) =
  Some (Some "1700000000.000300") /\
  resolved (Some "1700000000.000300")
    (events (processMessageRequest Examples.env1 Examples.downBackend
               (Examples.helloMention "1700000000.000100")) []) = false /\
  filter isUpdate
    (events (processMessageRequest Examples.env1 Examples.downBackend
               (Examples.helloMention "1700000000.000100")) []) = [] /\
  last (events (processMessageRequest Examples.env1 Examples.downBackend
                  (Examples.helloMention "1700000000.000100")) []) (EvSleep 0) =
  EvSay {| say_text := "⏰ Request timed out. Please try again.";
           say_thread_ts := Some "1700000000.000100" |}
        (Ok Examples.placeholder).
Proof. repeat split; vm_compute; reflexivity. Qed.

(** C6 (amended). The fate of the placeholder: once the placeholder is
    posted, a turn that ends in delivery has edited it in place with the
    composed reply, as its last step; a turn that fails after it (the
    backend client gives up, or the edit itself fails) leaves the
    placeholder as it was posted and ends with an apology sent to the
    thread as a separate message.  No other way out posts a placeholder. *)
Theorem placeholder_fate (env : Env) (w : World) (m : Message) (tr : Trace) :
  let new := events (processMessageRequest env w m) tr in
  match placeholderOf new with
  | None => True
  | Some p =>
    match value (processMessageRequest env w m tr) with
    | Delivered =>
      resolved p new = true /\
      exists reply,
        last new (EvSleep 0) =
        EvUpdate {| upd_channel := channel m; upd_ts := p;
                    upd_payload := reply |} (Ok tt)
    | Failed e =>
      resolved p new = false /\
      exists a, last new (EvSleep 0) = EvSay (apologyArgs m e) a
    | SideNoteSkipped | NotConfigured => False
    end
  end.
Proof.
  intros new.
  destruct (startsWithSideNote (cleanMessageText (text m))) eqn:Hnote.
  { destruct (quiet_turn env w m tr (or_introl Hnote)) as (_ & _ & _ & Hnone).
    fold new in Hnone. rewrite Hnone. exact I. }
  destruct (configured env) eqn:Hconf.
  2:{ destruct (quiet_turn env w m tr (or_intror Hconf)) as (_ & _ & _ & Hnone).
      fold new in Hnone. rewrite Hnone. exact I. }
  destruct (turn_events env w m tr Hconf Hnote)
    as [(e & a & Hnew & _)|(posted & be & tail & Hnew & Hback & _ & _ & Hcases)];
    fold new in Hnew.
  - destruct (historyFetch_quiet w m tr None) as (_ & _ & _ & Hh & _).
    rewrite Hnew, placeholderOf_app, Hh. cbn [placeholderOf].
    destruct a as [posted|]; [|exact I].
    cbn [say_text apologyArgs]. rewrite apology_not_thinking. exact I.
  - set (p := posted_ts posted).
    destruct (historyFetch_quiet w m tr p) as (_ & _ & _ & Hh & Hr).
    destruct (backendOnly_quiet p be Hback) as (_ & _ & Hbe).
    assert (placeholderOf new = Some p) as Hp.
    { rewrite Hnew, placeholderOf_app, Hh. cbn [placeholderOf thinkingArgs say_text].
      rewrite String.eqb_refl. reflexivity. }
    rewrite Hp.
    assert (resolved p new = resolved p tail) as Hres.
    { rewrite Hnew.
      change (EvSay (thinkingArgs m) (Ok posted) :: be ++ tail)
        with ([EvSay (thinkingArgs m) (Ok posted)] ++ be ++ tail).
      rewrite !resolved_app, Hr, Hbe. reflexivity. }
    assert (tail <> [] -> last new (EvSleep 0) = last tail (EvSleep 0)) as Hlast.
    { intros Hne. rewrite Hnew.
      change (EvSay (thinkingArgs m) (Ok posted) :: be ++ tail)
        with ([EvSay (thinkingArgs m) (Ok posted)] ++ be ++ tail).
      rewrite !app_assoc. apply last_app_tail. exact Hne. }
    destruct Hcases
      as [(d & _ & Htail & ->)|[(d & e & a & _ & Htail & ->)|(e & a & _ & Htail & ->)]];
      rewrite Hres, Hlast, Htail by (rewrite Htail; discriminate).
    + split.
      * cbn. fold p. rewrite eqbTs_refl. reflexivity.
      * eexists. reflexivity.
    + split; [reflexivity|]. exists a. reflexivity.
    + split; [reflexivity|]. exists a. reflexivity.
Qed.

(** *** The side note *)

Lemma ascii_eqb_dec (a b : ascii) :
  Ascii.eqb a b = if ascii_dec a b then true else false.
Proof.
  destruct (ascii_dec a b) as [->|Hne].
  - apply Ascii.eqb_refl.
  - apply Ascii.eqb_neq. exact Hne.
Qed.

(** Comparing up to case is comparing the lower-cased strings. *)
Lemma ciPrefix_lower (p s : string) :
  ciPrefix p s = startsWith (toLowerCase s) (toLowerCase p).
Proof.
  unfold startsWith. revert s.
  induction p as [|a p IH]; intros s; [destruct s; reflexivity|].
  destruct s as [|b s]; [reflexivity|].
  cbn [ciPrefix toLowerCase String.prefix].
  rewrite ascii_eqb_dec, IH.
  destruct (ascii_dec (lowerAscii a) (lowerAscii b)); reflexivity.
Qed.

Lemma aside_is_side_note (c : string) :
  beginsWithAside c = true -> startsWithSideNote (Some c) = true.
Proof.
  unfold beginsWithAside, startsWithSideNote. intros H.
  rewrite !ciPrefix_lower in H.
  change (toLowerCase "side note") with "side note" in H.
  change (toLowerCase "sidenote") with "sidenote" in H.
  change (toLowerCase "side-note") with "side-note" in H.
  rewrite H. destruct c; [discriminate H|reflexivity].
Qed.

(** C9. Side note: for every message handed to [processMessageRequest]
    whose text, the leading mention stripped, begins with side note,
    sidenote or side-note in any letter case, processing stops at once:
    nothing is posted and the backend is not called.  The event of channel
    C1 with the text [side note: ignore me] outside any thread is ignored,
    by the message handler and by [processMessageRequest] alike. *)
Theorem side_note_opts_out
    (env : Env) (w : World) (m : Message) (c : string) (tr : Trace) :
  cleanMessageText (text m) = Some c ->
  beginsWithAside c = true ->
  processMessageRequest env w m tr = (SideNoteSkipped, tr) /\
  processMessageRequest env w Examples.aside tr = (SideNoteSkipped, tr) /\
  messageHandler Examples.env1 w Examples.aside tr = (Ok Ignore, tr).
Proof.
  intros Hclean Haside. split; [|split; reflexivity].
  unfold processMessageRequest.
  rewrite Hclean, (aside_is_side_note c Haside). reflexivity.
Qed.

Lemma side_note_opts_out_witness :
  cleanMessageText (text Examples.asideMention) = Some "Side Note: fyi" /\
  beginsWithAside "Side Note: fyi" = true /\
  processMessageRequest Examples.env1 Examples.silentBackend
    Examples.asideMention [] = (SideNoteSkipped, []) /\
  processMessageRequest Examples.env1 Examples.silentBackend
    Examples.aside [] = (SideNoteSkipped, []) /\
  messageHandler Examples.env1 Examples.silentBackend Examples.aside [] =
    (Ok Ignore, []).
Proof.
  split; [reflexivity|]. split; [reflexivity|].
  exact (side_note_opts_out Examples.env1 Examples.silentBackend
           Examples.asideMention "Side Note: fyi" [] eq_refl eq_refl).
Defined.

(** *** Admission *)

(** The guards against bots, one by one, from [fromHuman]. *)
Ltac split_guards H :=
  unfold fromHuman in H;
  let Hbot := fresh "Hbot" in
  let Hsub := fresh "Hsub" in
  let Hprofile := fresh "Hprofile" in
  let Huser := fresh "Huser" in
  apply andb_prop in H; destruct H as [H Huser];
  apply andb_prop in H; destruct H as [H Hprofile];
  apply andb_prop in H; destruct H as [Hbot Hsub];
  apply negb_true_iff in Hbot, Hsub, Hprofile, Huser;
  unfold events, messageHandler; rewrite Hbot, Hsub, Hprofile, Huser.

(** The message handler past its guards: the message comes from a person,
    not from a direct conversation, and from a channel that is monitored. *)
Lemma messageHandler_past_guards
    (env : Env) (w : World) (m : Message) (tr : Trace) :
  fromHuman m = true ->
  isDMChannel (channel m) = false ->
  outsideMonitored env (channel m) = false ->
  messageHandler env w m tr =
  (shouldRespond <-
     (if containsMention env m then ret false
      else match threadReplyAnchor m with
           | Some t =>
             r <- conversations_replies w
                    {| rq_channel := channel m; rq_ts := t; rq_limit := 50 |} ;;
             match r with
             | Ok messages => ret (hasBotMessages messages)
             | Throw _ => ret false
             end
           | None => ret false
           end) ;;
   if negb shouldRespond then ok Ignore
   else o <- processMessageRequest env w m ;; ok (Processed o)) tr.
Proof.
  intros Hhuman Hdm Hout. split_guards Hhuman.
  rewrite Hdm, Hout, andb_false_r. reflexivity.
Qed.

(** C10. Admission of a thread reply by the message handler: a thread
    reply from a person that does not mention the bot makes the handler
    fetch the thread's history with [limit] 50; the reply is handed to
    [processMessageRequest] if and only if the fetch returns a message with
    a [bot_id], of whatever bot; when the fetch throws the event is ignored
    for this turn. *)
Theorem thread_reply_admission
    (env : Env) (w : World) (m : Message) (tr : Trace) (t : string) :
  fromHuman m = true ->
  isDMChannel (channel m) = false ->
  outsideMonitored env (channel m) = false ->
  containsMention env m = false ->
  threadReplyAnchor m = Some t ->
  let req := {| rq_channel := channel m; rq_ts := t; rq_limit := 50 |} in
  let res := on_replies w tr req in
  let fetched := tr ++ [EvReplies req res] in
  messageHandler env w m tr =
    match res with
    | Ok messages =>
      if hasBotMessages messages then
        (Ok (Processed (value (processMessageRequest env w m fetched))),
         trace (processMessageRequest env w m fetched))
      else (Ok Ignore, fetched)
    | Throw _ => (Ok Ignore, fetched)
    end /\
  ((exists o, value (messageHandler env w m tr) = Ok (Processed o)) <->
   (exists messages b,
       res = Ok messages /\ In b messages /\ truthyS (sm_bot_id b) = true)).
Proof.
  intros Hhuman Hdm Hout Hmention Hanchor req res fetched.
  assert (messageHandler env w m tr =
          match res with
          | Ok messages =>
            if hasBotMessages messages then
              (Ok (Processed (value (processMessageRequest env w m fetched))),
               trace (processMessageRequest env w m fetched))
            else (Ok Ignore, fetched)
          | Throw _ => (Ok Ignore, fetched)
          end) as Hrun.
  { rewrite (messageHandler_past_guards env w m tr Hhuman Hdm Hout).
    rewrite Hmention, Hanchor.
    unfold bind, conversations_replies, ret, ok, ret, value, trace.
    fold req. fold res. fold fetched.
    destruct res as [messages|e]; [|reflexivity].
    destruct (hasBotMessages messages); cbn [negb]; [|reflexivity].
    destruct (processMessageRequest env w m fetched). reflexivity. }
  split; [exact Hrun|].
  rewrite Hrun. split.
  - intros [o Ho]. destruct res as [messages|e]; [|discriminate Ho].
    destruct (hasBotMessages messages) eqn:Hbot; [|discriminate Ho].
    unfold hasBotMessages in Hbot. apply existsb_exists in Hbot.
    destruct Hbot as (b & Hin & Hb). exists messages, b. repeat split; assumption.
  - intros (messages & b & -> & Hin & Hb).
    assert (hasBotMessages messages = true) as Hbot
        by (apply existsb_exists; exists b; split; assumption).
    rewrite Hbot. eexists. reflexivity.
Qed.

Lemma thread_reply_admission_witness :
  fromHuman (Examples.threadReply "1700000000.000400") = true /\
  isDMChannel (channel (Examples.threadReply "1700000000.000400")) = false /\
  outsideMonitored Examples.env1
    (channel (Examples.threadReply "1700000000.000400")) = false /\
  containsMention Examples.env1 (Examples.threadReply "1700000000.000400") =
    false /\
  threadReplyAnchor (Examples.threadReply "1700000000.000400") =
    Some "1700000000.000100" /\
  exists o,
    value (messageHandler Examples.env1 (Examples.continuingWorld JsUndefined)
             (Examples.threadReply "1700000000.000400") []) =
    Ok (Processed o).
Proof.
  repeat (split; [reflexivity|]).
  apply (thread_reply_admission Examples.env1 (Examples.continuingWorld JsUndefined)
           (Examples.threadReply "1700000000.000400") [] "1700000000.000100"
           eq_refl eq_refl eq_refl eq_refl eq_refl).
  exists [Examples.botReply "abc-123"; Examples.humanReply], (Examples.botReply "abc-123").
  split; [reflexivity|]. split; [left; reflexivity|reflexivity].
Defined.

(** A thread without any message of a bot is not admitted. *)
Example quiet_thread_ignored :
  messageHandler Examples.env1 Examples.silentBackend
    (Examples.threadReply "1700000000.000400") [] =
  (Ok Ignore,
   [EvReplies {| rq_channel := "C1"; rq_ts := "1700000000.000100";
                 rq_limit := 50 |} (Ok [])]).
Proof. reflexivity. Qed.

(** *** The redirect *)

(** C8, as stated, fails: a message of a person in a group conversation,
    with a monitored channel configured, gets no pointer message; the
    handler leaves without a word. *)
Lemma group_message_not_redirected :
  fromHuman Examples.groupMessage = true /\
  isProbablyGroupDMOrPrivateChannel (channel Examples.groupMessage) = true /\
  MONITORED_CHANNEL Examples.env1 = Some "C1" /\
  messageHandler Examples.env1 Examples.silentBackend Examples.groupMessage [] =
  (Ok Ignore, []).
Proof. repeat split. Qed.

(** C8 (amended). Redirect: a message of a person in a direct
    conversation (a channel id that starts with D) is answered by the
    static pointer message, which names the monitored channel when one is
    configured, and by nothing else; a message of a person in a channel
    whose id starts with G, a monitored channel being configured that is
    not this one, makes the handler return at once: it posts no pointer
    message, makes no call and does not hand the message to the turn.
    Neither contacts the backend. *)
Theorem redirect_rule (env : Env) (w : World) (m : Message) (tr : Trace) :
  fromHuman m = true ->
  (if isDMChannel (channel m) then
     messageHandler env w m tr =
     (match on_say w tr (redirectArgs env) with
      | Ok _ => Ok RedirectToChannel
      | Throw e => Throw e
      end,
      tr ++ [sayEvent w tr (redirectArgs env)])
   else if isProbablyGroupDMOrPrivateChannel (channel m) &&
           outsideMonitored env (channel m)
   then messageHandler env w m tr = (Ok Ignore, tr)
   else True) /\
  match MONITORED_CHANNEL env with
  | Some c =>
    if isEmpty c then True
    else say_text (redirectArgs env) =
         ("👋 Hi there! I only respond to messages in <#" ++ c ++
          ">. Please write your message there and I'll respond in the thread!")%string
  | None => True
  end.
Proof.
  intros Hhuman. split.
  - split_guards Hhuman.
    destruct (isDMChannel (channel m)).
    + unfold tryBind, bind, say, ok, ret, sayEvent. fold (redirectArgs env).
      destruct (on_say w tr (redirectArgs env)); reflexivity.
    + destruct (isProbablyGroupDMOrPrivateChannel (channel m) &&
                outsideMonitored env (channel m)); [reflexivity|exact I].
  - unfold redirectArgs, redirectText, say_text.
    destruct (MONITORED_CHANNEL env) as [c|]; [|exact I].
    destruct c; [exact I|reflexivity].
Qed.

Lemma redirect_rule_witness :
  fromHuman Examples.directMessage = true /\
  messageHandler Examples.env1 Examples.silentBackend Examples.directMessage [] =
  (Ok RedirectToChannel,
   [EvSay {| say_text := "👋 Hi there! I only respond to messages in <#C1>. Please write your message there and I'll respond in the thread!";
             say_thread_ts := None |} (Ok Examples.placeholder)]).
Proof.
  split; [reflexivity|].
  exact (proj1 (redirect_rule Examples.env1 Examples.silentBackend
                  Examples.directMessage [] eq_refl)).
Defined.

(** *** The mention *)

(** C7, as stated, fails: a mention of the bot in the monitored channel
    whose text, the mention stripped, is an aside is dropped; the backend
    is not called and nothing is posted. *)
Lemma aside_mention_not_answered :
  outsideMonitored Examples.env1 (channel Examples.asideMention) = false /\
  appMentionHandler Examples.env1 Examples.silentBackend Examples.asideMention [] =
  (Processed SideNoteSkipped, []).
Proof. split; reflexivity. Qed.

Lemma appMentionHandler_inside
    (env : Env) (w : World) (event : Message) (tr : Trace) :
  outsideMonitored env (channel event) = false ->
  events (appMentionHandler env w event) tr =
  events (processMessageRequest env w (mockMessage event)) tr /\
  value (appMentionHandler env w event tr) =
  Processed (value (processMessageRequest env w (mockMessage event) tr)).
Proof.
  intros Hin. unfold events, appMentionHandler. rewrite Hin.
  unfold bind, ret, trace, value.
  destruct (processMessageRequest env w (mockMessage event) tr).
  split; reflexivity.
Qed.

(** C7 (amended). The mention path: for every [app_mention] event in the
    monitored channel (in any channel when none is configured), whatever
    its thread, whose text, the mention stripped, is no aside, and with
    both backend credentials configured, the handler posts the placeholder
    in the thread of the event; once the placeholder is posted it calls the
    backend with the stripped text and ends by editing the placeholder into
    the reply or by posting an apology. *)
Theorem mention_responds (env : Env) (w : World) (event : Message) (tr : Trace) :
  outsideMonitored env (channel event) = false ->
  configured env = true ->
  startsWithSideNote (cleanMessageText (text event)) = false ->
  let new := events (appMentionHandler env w event) tr in
  (exists r, In (EvSay (thinkingArgs event) r) new) /\
  match placeholderOf new with
  | None => True
  | Some p =>
    (exists q rest,
        postsOf new = q :: rest /\
        post_message q = cleanMessageText (text event)) /\
    ((exists reply r,
         last new (EvSleep 0) =
         EvUpdate {| upd_channel := channel event; upd_ts := p;
                     upd_payload := reply |} r) \/
     (exists e a, last new (EvSleep 0) = EvSay (apologyArgs event e) a))
  end.
Proof.
  intros Hin Hconf Hnote new.
  destruct (appMentionHandler_inside env w event tr Hin) as [Hev _].
  unfold new. rewrite Hev. clear new Hev.
  set (m := mockMessage event).
  change (thinkingArgs event) with (thinkingArgs m).
  change (channel event) with (channel m).
  change (text event) with (text m) in Hnote |- *.
  assert (forall e, apologyArgs event e = apologyArgs m e) as Hap by reflexivity.
  destruct (historyFetch_quiet w m tr None) as (Hh0 & _ & _ & Hh & _).
  destruct (turn_events env w m tr Hconf Hnote)
    as [(e & a & Hnew & _)|(posted & be & tail & Hnew & Hback & Hposts & Hall & Hcases)];
    rewrite Hnew.
  - split.
    + exists (Throw e). apply in_or_app. right. left. reflexivity.
    + rewrite placeholderOf_app, Hh. cbn [placeholderOf].
      destruct a as [posted|]; [|exact I].
      cbn [say_text apologyArgs]. rewrite apology_not_thinking. exact I.
  - split.
    + exists (Ok posted). apply in_or_app. right. left. reflexivity.
    + rewrite placeholderOf_app, Hh.
      cbn [placeholderOf thinkingArgs say_text]. rewrite String.eqb_refl.
      split.
      * change (EvSay (thinkingArgs m) (Ok posted) :: be ++ tail)
          with ([EvSay (thinkingArgs m) (Ok posted)] ++ be ++ tail).
        rewrite !postsOf_app, Hh0. cbn [postsOf List.app].
        destruct (postsOf be) as [|q rest]; [simpl in Hposts; lia|].
        exists q. eexists. split; [reflexivity|].
        inversion Hall as [|? ? Hq _]. rewrite Hq. reflexivity.
      * change (EvSay (thinkingArgs m) (Ok posted) :: be ++ tail)
          with ([EvSay (thinkingArgs m) (Ok posted)] ++ be ++ tail).
        rewrite !app_assoc.
        destruct Hcases
          as [(d & _ & -> & _)|[(d & e & a & _ & -> & _)|(e & a & _ & -> & _)]];
          rewrite last_app_tail by discriminate.
        -- left. eexists. eexists. reflexivity.
        -- right. exists e, a. rewrite Hap. reflexivity.
        -- right. exists e, a. rewrite Hap. reflexivity.
Qed.

Lemma mention_responds_witness :
  outsideMonitored Examples.env1
    (channel (Examples.helloMention "1700000000.000100")) = false /\
  configured Examples.env1 = true /\
  startsWithSideNote
    (cleanMessageText (text (Examples.helloMention "1700000000.000100"))) =
    false /\
  exists r,
    In (EvSay (thinkingArgs (Examples.helloMention "1700000000.000100")) r)
       (events (appMentionHandler Examples.env1 Examples.silentBackend
                  (Examples.helloMention "1700000000.000100")) []).
Proof.
  repeat (split; [reflexivity|]).
  exact (proj1 (mention_responds Examples.env1 Examples.silentBackend
                  (Examples.helloMention "1700000000.000100") []
                  eq_refl eq_refl eq_refl)).
Defined.

(** The scenario of the mention at the root of the monitored channel: the
    placeholder, one request with the stripped text, the edit. *)
Example mention_scenario :
  map post_message
    (postsOf (events (appMentionHandler Examples.env1 Examples.silentBackend
                        (Examples.helloMention "1700000000.000100")) [])) =
  [Some "hello"] /\
  value (appMentionHandler Examples.env1 Examples.silentBackend
           (Examples.helloMention "1700000000.000100") []) =
  Processed Delivered.
Proof. split; vm_compute; reflexivity. Qed.

(** ** Further properties of the source *)

(** *** Every way of a turn *)

Lemma error_eta (e : JsError) (s : string) :
  message e = s -> e = {| message := s |}.
Proof. destruct e as [msg]. simpl. intros ->. reflexivity. Qed.

(** Every run of [processMessageRequest] extends the trace by one of the
    ways of [TurnEvents]. *)
Lemma turn_trace (env : Env) (w : World) (m : Message) (tr : Trace) :
  exists out new,
    processMessageRequest env w m tr = (out, tr ++ new) /\
    TurnEvents env w m tr out new.
Proof.
  destruct (startsWithSideNote (cleanMessageText (text m))) eqn:Hnote.
  { exists SideNoteSkipped, []. split; [|constructor; exact Hnote].
    unfold processMessageRequest. rewrite Hnote, app_nil_r. reflexivity. }
  destruct (configured env) eqn:Hconf.
  - pose proof (processMessageRequest_run env w m tr Hconf Hnote) as Hrun.
    cbv zeta in Hrun. rewrite Hrun. clear Hrun.
    set (tr1 := tr ++ historyFetch w m tr).
    destruct (on_say w tr1 (thinkingArgs m)) as [posted|e].
    2:{ eexists. eexists. split.
        - unfold tr1, sayEvent. rewrite <- !app_assoc. reflexivity.
        - apply TurnNoPlaceholder; assumption. }
    destruct (retryLoop_events env w (cleanMessageText (text m))
                (contextFor m (locatedId w m tr)) 3 3 1
                (tr1 ++ [EvSay (thinkingArgs m) (Ok posted)]) eq_refl)
      as (be & Htr & Hle & Hpos & Hall & Hback & _ & Hval).
    change (retryLoop env w 3 1 3 (cleanMessageText (text m))
              (contextFor m (locatedId w m tr)))
      with (callMattGPTWithRetry env w (cleanMessageText (text m))
              (contextFor m (locatedId w m tr)) 3) in Htr, Hval.
    assert (BackendRun env w m tr be) as Hbe.
    { split; [exact Hback|]. split; [split; [apply Hpos; lia|exact Hle]|exact Hall]. }
    rewrite Htr.
    destruct (value (callMattGPTWithRetry env w (cleanMessageText (text m))
                       (contextFor m (locatedId w m tr)) 3
                       (tr1 ++ [EvSay (thinkingArgs m) (Ok posted)])))
      as [[data|]|e].
    + destruct Hval as [Hans _].
      destruct (on_update w _ (updateFor m posted data (locatedId w m tr)))
        as [[]|e].
      * eexists. eexists. split.
        -- unfold tr1. rewrite <- !app_assoc. reflexivity.
        -- apply TurnDelivered; assumption.
      * eexists. eexists. split.
        -- unfold tr1, sayEvent. rewrite <- !app_assoc. reflexivity.
        -- apply TurnEditFailed; assumption.
    + discriminate Hval.
    + destruct Hval as (Hans & Hlen & cause & _ & Hmsg).
      apply error_eta in Hmsg. subst e.
      eexists. eexists. split.
      * unfold tr1, sayEvent. rewrite <- !app_assoc. reflexivity.
      * apply (TurnBackendFailed env w m tr posted be cause); assumption.
  - unfold processMessageRequest. rewrite Hnote.
    assert (tryTurn env w m (cleanMessageText (text m)) tr =
            (match on_say w tr (configArgs env m) with
             | Ok _ => Ok NotConfigured
             | Throw e => Throw e
             end,
             tr ++ [EvSay (configArgs env m) (on_say w tr (configArgs env m))]))
      as Htry.
    { unfold tryTurn, configArgs, anchorOf. unfold configured in Hconf.
      destruct (truthyS (MATT_GPT_BEARER_TOKEN env)); cbn [negb andb] in Hconf |- *.
      - rewrite Hconf. cbn [negb].
        unfold tryBind, bind, say, ok, ret.
        destruct (on_say w tr _); reflexivity.
      - unfold tryBind, bind, say, ok, ret.
        destruct (on_say w tr _); reflexivity. }
    unfold bind at 1. rewrite Htry.
    destruct (on_say w tr (configArgs env m)) as [posted|e].
    + eexists. eexists. split; [reflexivity|].
      apply TurnUnconfigured; assumption.
    + eexists. eexists. split.
      * unfold bind, say, ret. fold (anchorOf m). fold (apologyArgs m e).
        rewrite <- app_assoc. reflexivity.
      * apply TurnUnconfiguredFailed; assumption.
Qed.

Lemma turn_run (env : Env) (w : World) (m : Message) (tr : Trace) :
  exists out new,
    value (processMessageRequest env w m tr) = out /\
    trace (processMessageRequest env w m tr) = tr ++ new /\
    events (processMessageRequest env w m) tr = new /\
    TurnEvents env w m tr out new.
Proof.
  destruct (turn_trace env w m tr) as (out & new & Hrun & Hshape).
  exists out, new. unfold events. rewrite Hrun. unfold value, trace. cbn [fst snd].
  repeat split; [apply skipn_extension|exact Hshape].
Qed.

Lemma saysOf_app (a b : Trace) : saysOf (a ++ b) = saysOf a ++ saysOf b.
Proof.
  induction a as [|e a IH]; simpl; [reflexivity|].
  destruct e; simpl; rewrite IH; reflexivity.
Qed.

Lemma fetchesOf_app (a b : Trace) :
  fetchesOf (a ++ b) = fetchesOf a ++ fetchesOf b.
Proof.
  induction a as [|e a IH]; simpl; [reflexivity|].
  destruct e; simpl; rewrite IH; reflexivity.
Qed.

Lemma updatesOf_app (a b : Trace) :
  updatesOf (a ++ b) = updatesOf a ++ updatesOf b.
Proof.
  induction a as [|e a IH]; simpl; [reflexivity|].
  destruct e; simpl; rewrite IH; reflexivity.
Qed.

(** The backend client posts nothing to Slack. *)
Lemma backendOnly_silent (be : Trace) :
  Forall (fun e => backendOnly e = true) be ->
  saysOf be = [] /\ fetchesOf be = [] /\ updatesOf be = [].
Proof.
  induction 1 as [|e be He _ (IH1 & IH2 & IH3)]; [repeat split|].
  destruct e; try discriminate He; repeat split; assumption.
Qed.

Lemma anchor_of_thread_reply (m : Message) (t : string) :
  threadReplyAnchor m = Some t -> thread_ts m = Some t /\ anchorOf m = t.
Proof.
  unfold threadReplyAnchor, anchorOf, orElseS.
  destruct (thread_ts m) as [t'|]; [|discriminate].
  destruct t' as [|c t']; [discriminate|].
  cbn [isEmpty negb andb].
  destruct (negb (String.eqb (String c t') (ts m))); [|discriminate].
  intros [= <-]. split; reflexivity.
Qed.

(** Rewriting of the observers over the events of a turn. *)
Ltac observe :=
  repeat (rewrite ?postsOf_app, ?saysOf_app, ?fetchesOf_app, ?updatesOf_app,
            ?answersOf_app, ?repliesOf_app, ?length_app;
          cbn [postsOf saysOf fetchesOf updatesOf answersOf repliesOf
               List.app length]).

(** The events of a turn, each observer applied: what the history fetch,
    the backend client and the last step contribute. *)
Ltac turn_cases env w m tr out new Hout Hnew Hshape :=
  destruct (turn_run env w m tr) as (out & new & Hout & _ & Hnew & Hshape);
  rewrite ?Hout, ?Hnew;
  destruct Hshape
    as [?Hnote
       |?posted ?Hnote ?Hconf
       |?e ?a ?Hnote ?Hconf
       |?e ?a ?Hnote ?Hconf
       |?posted ?be ?data ?Hnote ?Hconf ?Hbe ?Hans
       |?posted ?be ?data ?e ?a ?Hnote ?Hconf ?Hbe ?Hans
       |?posted ?be ?cause ?a ?Hnote ?Hconf ?Hbe ?Hans ?Hlen];
  try match goal with
      | Hb : BackendRun _ _ _ _ ?b |- _ =>
        let Hback := fresh "Hback" in
        let Hpos := fresh "Hpos" in
        let Hle := fresh "Hle" in
        let Hall := fresh "Hall" in
        let Hs := fresh "Hs" in
        let Hf := fresh "Hf" in
        let Hu := fresh "Hu" in
        destruct Hb as (Hback & [Hpos Hle] & Hall);
        destruct (backendOnly_silent b Hback) as (Hs & Hf & Hu)
      end.

(** What one run of [processMessageRequest] can cost. *)
Lemma turn_counts (env : Env) (w : World) (m : Message) (tr : Trace) :
  let new := events (processMessageRequest env w m) tr in
  length (fetchesOf new) <= 1 /\
  length (saysOf new) <= 2 /\
  length (postsOf new) <= 3 /\
  length (updatesOf new) <= 1.
Proof.
  intros new. unfold new.
  turn_cases env w m tr out ev Hout Hnew Hshape;
    unfold historyFetch; destruct (threadReplyAnchor m); cbv zeta;
    observe; rewrite ?Hs, ?Hf, ?Hu; cbn [length]; repeat split; lia.
Qed.

(** *** Where a turn writes *)

(** X2. Whatever happens in a turn, every message it posts with [say] goes
    to the thread of the event ([thread_ts || ts]), every edit is made in
    the channel of the event with that thread as [thread_ts], and the
    history it fetches is that of this channel and thread, 50 messages at
    most. *)
Theorem turn_stays_in_thread (env : Env) (w : World) (m : Message) (tr : Trace) :
  let new := events (processMessageRequest env w m) tr in
  Forall (fun a => say_thread_ts a = Some (anchorOf m)) (saysOf new) /\
  Forall (fun u => upd_channel u = channel m /\
                   sm_thread_ts (upd_payload u) = Some (anchorOf m))
         (updatesOf new) /\
  Forall (fun r => rq_channel r = channel m /\ rq_ts r = anchorOf m /\
                   rq_limit r = 50)
         (fetchesOf new).
Proof.
  intros new. unfold new.
  turn_cases env w m tr out ev Hout Hnew Hshape;
    unfold historyFetch;
    destruct (threadReplyAnchor m) as [t|] eqn:Hanchor; cbv zeta;
    observe; rewrite ?Hs, ?Hf, ?Hu; cbn [List.app];
    try (destruct (anchor_of_thread_reply m t Hanchor) as [_ Ht]);
    repeat split; repeat constructor; try reflexivity; try (symmetry; exact Ht).
Qed.

(** *** What the backend is asked *)

Lemma requestFor_conversation_id (env : Env) (msg : option string)
    (m : Message) (located : JsVal) :
  post_conversation_id (requestFor env msg (contextFor m located)) =
  if truthy located then Some (toString located) else None.
Proof.
  unfold requestFor, contextFor, post_conversation_id, ctx_conversation_id.
  destruct located as [| |id]; try reflexivity.
  destruct id; reflexivity.
Qed.

(** X3. Every request that a turn sends to the backend goes to the chat
    end point of the configured URL with a timeout of 30000 ms, carries
    the text of the event with its leading mention stripped, and carries a
    conversation id exactly when one was located in the thread history,
    namely that one; a message that is no thread reply is sent without a
    conversation id. *)
Theorem turn_request (env : Env) (w : World) (m : Message) (tr : Trace) :
  let new := events (processMessageRequest env w m) tr in
  let located := locatedId w m tr in
  Forall (fun q =>
            post_url q = (MATT_GPT_API_URL env ++ "/chat")%string /\
            post_timeout q = 30000%Z /\
            post_message q = cleanMessageText (text m) /\
            post_conversation_id q =
              (if truthy located then Some (toString located) else None) /\
            match threadReplyAnchor m with
            | None => post_conversation_id q = None
            | Some _ => True
            end)
         (postsOf new).
Proof.
  intros new located. unfold new.
  assert (forall be, Forall (fun q => q = turnRequest env w m tr) (postsOf be) ->
            Forall (fun q =>
              post_url q = (MATT_GPT_API_URL env ++ "/chat")%string /\
              post_timeout q = 30000%Z /\
              post_message q = cleanMessageText (text m) /\
              post_conversation_id q =
                (if truthy located then Some (toString located) else None) /\
              match threadReplyAnchor m with
              | None => post_conversation_id q = None
              | Some _ => True
              end) (postsOf be)) as Hreq.
  { intros be Hall. eapply Forall_impl; [|exact Hall].
    intros q ->. unfold turnRequest.
    rewrite requestFor_conversation_id. fold located.
    repeat split.
    unfold located, locatedId. destruct (threadReplyAnchor m); [exact I|reflexivity]. }
  assert (postsOf (historyFetch w m tr) = []) as Hh
      by (unfold historyFetch; destruct (threadReplyAnchor m); reflexivity).
  turn_cases env w m tr out ev Hout Hnew Hshape;
    observe; rewrite ?Hh; cbn [List.app]; try constructor;
    rewrite ?app_nil_r; apply Hreq; assumption.
Qed.

(** *** A missing credential *)

(** X4. When the bearer token or the OpenRouter key is not set, a turn
    that is no aside does one thing: it posts the message that names the
    missing variable (the bearer token first) in the thread of the event;
    it fetches no history, posts no placeholder and sends nothing to the
    backend.  When that post fails, the apology is tried and the turn has
    failed. *)
Theorem unconfigured_turn (env : Env) (w : World) (m : Message) (tr : Trace) :
  configured env = false ->
  startsWithSideNote (cleanMessageText (text m)) = false ->
  (exists posted,
      processMessageRequest env w m tr =
      (NotConfigured, tr ++ [EvSay (configArgs env m) (Ok posted)])) \/
  (exists e a,
      processMessageRequest env w m tr =
      (Failed e, tr ++ [EvSay (configArgs env m) (Throw e);
                        EvSay (apologyArgs m e) a])).
Proof.
  intros Hunconf Hnoaside.
  destruct (turn_trace env w m tr) as (out & new & Hrun & Hshape).
  rewrite Hrun.
  destruct Hshape; try congruence.
  - left. exists posted. reflexivity.
  - right. exists e, a. reflexivity.
Qed.

Lemma unconfigured_turn_witness :
  configured Examples.envNoKey = false /\
  startsWithSideNote
    (cleanMessageText (text (Examples.helloMention "1700000000.000100"))) = false /\
  ((exists posted,
      processMessageRequest Examples.envNoKey Examples.silentBackend
        (Examples.helloMention "1700000000.000100") [] =
      (NotConfigured,
       [] ++ [EvSay {| say_text := "❌ OpenRouter API key is not configured. Please set OPENROUTER_API_KEY environment variable.";
                       say_thread_ts := Some "1700000000.000100" |} (Ok posted)])) \/
   (exists e a,
      processMessageRequest Examples.envNoKey Examples.silentBackend
        (Examples.helloMention "1700000000.000100") [] =
      (Failed e,
       [] ++ [EvSay {| say_text := "❌ OpenRouter API key is not configured. Please set OPENROUTER_API_KEY environment variable.";
                       say_thread_ts := Some "1700000000.000100" |} (Throw e);
              EvSay (apologyArgs (Examples.helloMention "1700000000.000100") e) a]))).
Proof.
  split; [reflexivity|]. split; [reflexivity|].
  exact (unconfigured_turn Examples.envNoKey Examples.silentBackend
           (Examples.helloMention "1700000000.000100") [] eq_refl eq_refl).
Defined.

(** *** The placeholder comes first *)

Lemma before_first {A : Type} (P : A -> Prop) (a b pre post : list A) (x y : A) :
  a ++ x :: b = pre ++ y :: post ->
  Forall (fun e => ~ P e) a -> P y -> In x pre \/ x = y.
Proof.
  revert pre. induction a as [|a0 a IH]; intros pre Heq Ha Hy.
  - destruct pre as [|p0 pre]; cbn [List.app] in Heq; injection Heq as Hx _.
    + right. exact Hx.
    + left. left. symmetry. exact Hx.
  - inversion Ha as [|? ? Ha0 Ha']; subst.
    destruct pre as [|p0 pre]; cbn [List.app] in Heq; injection Heq as H0 Hrest.
    + subst a0. contradiction.
    + destruct (IH pre Hrest Ha' Hy) as [Hin|Hxy]; [left; right; exact Hin|right; exact Hxy].
Qed.

Lemma historyFetch_no_request (w : World) (m : Message) (tr : Trace) :
  Forall (fun e => ~ isBackendRequest e) (historyFetch w m tr).
Proof.
  unfold historyFetch. destruct (threadReplyAnchor m); repeat constructor; intros [].
Qed.

(** X5. The placeholder comes first: in every turn, before any request is
    sent to the backend the placeholder has been posted in the thread, and
    the post has succeeded. *)
Theorem placeholder_before_backend
    (env : Env) (w : World) (m : Message) (tr : Trace)
    (pre post : Trace) (q : PostReq) (r : Result ResponseData) :
  events (processMessageRequest env w m) tr = pre ++ EvPost q r :: post ->
  exists posted, In (EvSay (thinkingArgs m) (Ok posted)) pre.
Proof.
  intros Hsplit.
  assert (forall ev, ev = pre ++ EvPost q r :: post -> postsOf ev <> []) as Hsome.
  { intros ev ->. rewrite postsOf_app. cbn [postsOf]. intros Hnil.
    apply app_eq_nil in Hnil. destruct Hnil as [_ Hnil]. discriminate Hnil. }
  assert (postsOf (historyFetch w m tr) = []) as Hh
      by (unfold historyFetch; destruct (threadReplyAnchor m); reflexivity).
  revert Hsplit.
  turn_cases env w m tr out ev Hout Hnew Hshape; intros Hsplit;
    try (exfalso; apply (Hsome _ Hsplit); observe; rewrite ?Hh; reflexivity).
  all: exists posted;
    destruct (before_first isBackendRequest _ _ _ _ _ _ Hsplit
                (historyFetch_no_request w m tr) I) as [Hin|Habs];
    [exact Hin|discriminate Habs].
Qed.

Lemma placeholder_before_backend_witness :
  events (processMessageRequest Examples.env1 Examples.silentBackend
            (Examples.helloMention "1700000000.000100")) [] =
  [EvSay (thinkingArgs (Examples.helloMention "1700000000.000100"))
         (Ok Examples.placeholder)] ++
  EvPost (turnRequest Examples.env1 Examples.silentBackend
            (Examples.helloMention "1700000000.000100") [])
         (Ok (Examples.answer JsUndefined)) ::
  [EvUpdate (updateFor (Examples.helloMention "1700000000.000100")
               Examples.placeholder (Examples.answer JsUndefined) JsNull)
            (Ok tt)] /\
  exists posted,
    In (EvSay (thinkingArgs (Examples.helloMention "1700000000.000100"))
              (Ok posted))
       [EvSay (thinkingArgs (Examples.helloMention "1700000000.000100"))
              (Ok Examples.placeholder)].
Proof.
  assert (events (processMessageRequest Examples.env1 Examples.silentBackend
                    (Examples.helloMention "1700000000.000100")) [] =
          [EvSay (thinkingArgs (Examples.helloMention "1700000000.000100"))
                 (Ok Examples.placeholder)] ++
          EvPost (turnRequest Examples.env1 Examples.silentBackend
                    (Examples.helloMention "1700000000.000100") [])
                 (Ok (Examples.answer JsUndefined)) ::
          [EvUpdate (updateFor (Examples.helloMention "1700000000.000100")
                       Examples.placeholder (Examples.answer JsUndefined) JsNull)
                    (Ok tt)]) as Hrun by (vm_compute; reflexivity).
  split; [exact Hrun|].
  exact (placeholder_before_backend _ _ _ _ _ _ _ _ Hrun).
Defined.

(** *** When the handlers stay silent *)

Lemma not_from_human (env : Env) (w : World) (m : Message) (tr : Trace) :
  fromHuman m = false -> messageHandler env w m tr = (Ok Ignore, tr).
Proof.
  unfold fromHuman, messageHandler. intros H.
  destruct (truthyS (bot_id m)); [reflexivity|].
  destruct (truthyS (subtype m) &&
            negb match subtype m with
                 | Some st => String.eqb st "thread_broadcast"
                 | None => false
                 end); [reflexivity|].
  destruct (bot_profile m); [reflexivity|].
  destruct (match user m with
            | Some u => String.eqb u "USLACKBOT"
            | None => false
            end); [reflexivity|discriminate H].
Qed.

(** X6. The message handler does nothing at all, no post, no fetch, no
    request, and ignores the event, exactly when the message comes from a
    bot (a [bot_id], a subtype other than thread_broadcast, a
    [bot_profile], the user USLACKBOT) or, outside direct conversations,
    when it is outside the monitored channel, mentions the bot anywhere in
    its text, or is no thread reply.  In every other case it makes at
    least one call. *)
Theorem messageHandler_silence (env : Env) (w : World) (m : Message) (tr : Trace) :
  if passedOver env m
  then messageHandler env w m tr = (Ok Ignore, tr)
  else events (messageHandler env w m) tr <> [].
Proof.
  unfold passedOver.
  destruct (fromHuman m) eqn:Hhuman; cbn [negb orb].
  2:{ apply not_from_human. exact Hhuman. }
  destruct (isDMChannel (channel m)) eqn:Hdm; cbn [negb andb].
  { split_guards Hhuman. rewrite Hdm.
    unfold tryBind, bind, say, ok, ret, trace.
    destruct (on_say w tr _); cbn [snd]; rewrite skipn_extension; discriminate. }
  destruct (outsideMonitored env (channel m)) eqn:Hout; cbn [orb].
  { split_guards Hhuman. rewrite Hdm, Hout.
    destruct (isProbablyGroupDMOrPrivateChannel (channel m)); reflexivity. }
  rewrite (messageHandler_past_guards env w m tr Hhuman Hdm Hout).
  unfold events.
  rewrite (messageHandler_past_guards env w m tr Hhuman Hdm Hout).
  destruct (containsMention env m); cbn [orb]; [reflexivity|].
  destruct (threadReplyAnchor m) as [t|]; [|reflexivity].
  unfold bind, conversations_replies, ret, ok, ret, trace.
  set (req := {| rq_channel := channel m; rq_ts := t; rq_limit := 50 |}).
  destruct (on_replies w tr req) as [messages|e].
  - destruct (hasBotMessages messages); cbn [negb snd].
    + destruct (turn_trace env w m (tr ++ [EvReplies req (Ok messages)]))
        as (out & new & Hrun & _).
      rewrite Hrun. cbn [snd]. rewrite <- app_assoc, skipn_extension.
      discriminate.
    + rewrite skipn_extension. discriminate.
  - cbn [negb snd]. rewrite skipn_extension. discriminate.
Qed.

(** X7. The mention handler does nothing at all exactly when the event is
    outside the monitored channel or its text, the mention stripped, is an
    aside; in every other case it tries to post at least one message. *)
Theorem appMentionHandler_silence
    (env : Env) (w : World) (event : Message) (tr : Trace) :
  if outsideMonitored env (channel event)
  then appMentionHandler env w event tr = (Ignore, tr)
  else if startsWithSideNote (cleanMessageText (text event))
  then appMentionHandler env w event tr = (Processed SideNoteSkipped, tr)
  else saysOf (events (appMentionHandler env w event) tr) <> [].
Proof.
  destruct (outsideMonitored env (channel event)) eqn:Hout.
  { unfold appMentionHandler. rewrite Hout. reflexivity. }
  destruct (appMentionHandler_inside env w event tr Hout) as [Hev Hval].
  destruct (startsWithSideNote (cleanMessageText (text event))) eqn:Hnote.
  - unfold appMentionHandler. rewrite Hout.
    unfold bind, processMessageRequest.
    change (text (mockMessage event)) with (text event). rewrite Hnote.
    reflexivity.
  - rewrite Hev.
    change (text event) with (text (mockMessage event)) in Hnote.
    turn_cases env w (mockMessage event) tr out ev Hout' Hnew Hshape;
      try congruence; observe; rewrite ?Hs;
      intros Hnil; repeat (apply app_eq_nil in Hnil; destruct Hnil as [_ Hnil]);
      discriminate Hnil.
Qed.

(** *** The apology after the retries *)

Lemma includes_skip (c : ascii) (s p : string) :
  startsWith (String c s) p = false ->
  includes (String c s) p = includes s p.
Proof. intros H. cbn [includes]. rewrite H. reflexivity. Qed.

(** The fixed part of the message of the backend client holds neither
    [timeout] nor [rate], and holds [API]. *)
Lemma exhausted_includes (cause : JsError) :
  includes (exhaustedMessage cause) "timeout" = includes (message cause) "timeout" /\
  includes (exhaustedMessage cause) "rate" = includes (message cause) "rate" /\
  includes (exhaustedMessage cause) "API" = true.
Proof.
  unfold exhaustedMessage. cbn [String.append].
  split; [|split].
  - repeat (rewrite includes_skip by reflexivity). reflexivity.
  - repeat (rewrite includes_skip by reflexivity). reflexivity.
  - do 9 (rewrite includes_skip by reflexivity). reflexivity.
Qed.

(** X8. When the backend client gives up after its third attempt, the
    error it throws names the last cause, and the apology chosen for it
    is never the general one: it is the time-out apology when the cause
    mentions [timeout], else the busy apology when the cause mentions
    [rate], and the unavailable apology otherwise. *)
Theorem exhausted_apology
    (env : Env) (w : World) (msg : option string) (context : ApiContext)
    (tr : Trace) :
  match value (callMattGPTWithRetry env w msg context 3 tr) with
  | Throw e =>
    exists cause,
      message e = exhaustedMessage cause /\
      userMessageFor e =
        (if includes (message cause) "timeout" then
           "⏰ Request timed out. Please try again."
         else if includes (message cause) "rate" then
           "🚦 Service is busy. Please wait a moment and try again."
         else
           "🤖 Matt-GPT is temporarily unavailable. Please try again later.")
  | Ok _ => True
  end.
Proof.
  destruct (retryLoop_events env w msg context 3 3 1 tr eq_refl)
    as (new & _ & _ & _ & _ & _ & _ & Hval).
  change (retryLoop env w 3 1 3 msg context)
    with (callMattGPTWithRetry env w msg context 3) in Hval.
  destruct (value (callMattGPTWithRetry env w msg context 3 tr)) as [|e];
    [exact I|].
  destruct Hval as (_ & _ & cause & _ & Hmsg).
  exists cause. split; [exact Hmsg|].
  destruct (exhausted_includes cause) as (Ht & Hr & Ha).
  unfold userMessageFor.
  change (message e = exhaustedMessage cause) in Hmsg.
  rewrite Hmsg, Ht, Hr, Ha. reflexivity.
Qed.

(** *** The backend client, any number of attempts *)

(** X9. For every natural number [maxRetries] from 0 to 22, the range in
    which every delay is an exact double that [setTimeout] takes as it is,
    [callMattGPTWithRetry] sends at most [maxRetries] requests, all the
    same; between them it hands [setTimeout] the delays of 2, 4, 8, ...
    seconds, one delay less than requests; it returns the first answer it
    gets and sends nothing after it; it throws only after exactly
    [maxRetries] failed requests, the last event being the failed request;
    and it returns [undefined] only when [maxRetries] is 0, without any
    request. *)
Theorem retry_any_bound
    (env : Env) (w : World) (msg : option string) (context : ApiContext)
    (maxRetries : nat) (tr : Trace) :
  maxRetries <= 22 ->
  let run := callMattGPTWithRetry env w msg context maxRetries in
  let new := events run tr in
  let req := requestFor env msg context in
  length (postsOf new) <= maxRetries /\
  Forall (fun delay => (0 < delay < 2 ^ 31)%Z) (sleepsOf new) /\
  Forall (fun q => q = req) (postsOf new) /\
  sleepsOf new = map delayAfter (seq 1 (length (postsOf new) - 1)) /\
  match value (run tr) with
  | Ok (Some data) =>
    answersOf new = [data] /\ last new (EvSleep 0) = EvPost req (Ok data)
  | Ok None => maxRetries = 0 /\ new = []
  | Throw e =>
    answersOf new = [] /\
    length (postsOf new) = maxRetries /\
    exists cause,
      last new (EvSleep 0) = EvPost req (Throw cause) /\
      message e = ("Matt-GPT API failed after " ++ ofNat maxRetries ++
                   " attempts: " ++ message cause)%string
  end.
Proof.
  intros Hrange run new req.
  destruct (retryLoop_events env w msg context maxRetries maxRetries 1 tr)
    as (new' & Htr & Hle & _ & Hall & _ & Hsleep & Hval); [lia|].
  assert (new = new') as -> by (apply events_app; exact Htr).
  split; [exact Hle|].
  split.
  { rewrite Hsleep. apply Forall_forall. intros delay Hin.
    apply in_map_iff in Hin. destruct Hin as (k & <- & Hk).
    apply in_seq in Hk. unfold delayAfter.
    assert (1 <= Z.of_nat k <= 21)%Z as Hk' by lia.
    assert (2 ^ 1 <= 2 ^ Z.of_nat k <= 2 ^ 21)%Z as Hpow
        by (split; apply Z.pow_le_mono_r; lia).
    change (2 ^ 1)%Z with 2%Z in Hpow.
    change (2 ^ 21)%Z with 2097152%Z in Hpow.
    change (2 ^ 31)%Z with 2147483648%Z. lia. }
  split; [exact Hall|]. split; [exact Hsleep|].
  unfold run, callMattGPTWithRetry.
  destruct (value (retryLoop env w maxRetries 1 maxRetries msg context tr))
    as [[data|]|e]; try exact Hval.
  split; [exact Hval|].
  subst maxRetries. destruct new' as [|e0 rest]; [reflexivity|].
  exfalso. cbn [retryLoop] in Htr. unfold ok, ret, trace in Htr. cbn [snd] in Htr.
  apply (f_equal (@length Event)) in Htr. rewrite length_app in Htr.
  cbn [length] in Htr. lia.
Qed.

Lemma retry_any_bound_witness :
  5 <= 22 /\
  length (postsOf (events (callMattGPTWithRetry Examples.env1 Examples.downBackend
                             (Some "hello")
                             (contextFor (Examples.helloMention "1700000000.000100")
                                         JsNull) 5) [])) <= 5 /\
  Forall (fun delay => (0 < delay < 2 ^ 31)%Z)
    (sleepsOf (events (callMattGPTWithRetry Examples.env1 Examples.downBackend
                         (Some "hello")
                         (contextFor (Examples.helloMention "1700000000.000100")
                                     JsNull) 5) [])).
Proof.
  assert (5 <= 22) as Hrange by lia.
  split; [exact Hrange|].
  pose proof (retry_any_bound Examples.env1 Examples.downBackend (Some "hello")
                (contextFor (Examples.helloMention "1700000000.000100") JsNull)
                5 [] Hrange) as Hbound.
  cbv zeta in Hbound.
  exact (conj (proj1 Hbound) (proj1 (proj2 Hbound))).
Defined.

(** *** Decoding *)

Lemma extractFromBlocks_cons (block : Block) (rest : list Block) :
  extractFromBlocks (block :: rest) =
  if isTagged block
  then match block_id block with
       | Some id => JsString (replace id "conv_" EmptyString)
       | None => JsNull
       end
  else extractFromBlocks rest.
Proof. reflexivity. Qed.

(** X10. [extractConversationId] returns [null] exactly when the message
    has no blocks or none of its blocks has a [block_id] that starts with
    the tag; a message without blocks, or with an empty list of blocks,
    decodes to [null]. *)
Theorem extract_null_iff (m : SlackMessage) :
  extractConversationId m = JsNull <->
  match sm_blocks m with
  | Some blocks => forallb (fun b => negb (isTagged b)) blocks = true
  | None => True
  end.
Proof.
  unfold extractConversationId.
  destruct (sm_blocks m) as [blocks|]; [|split; reflexivity].
  induction blocks as [|b rest IH]; [split; reflexivity|].
  rewrite extractFromBlocks_cons. cbn [forallb].
  destruct (isTagged b) eqn:Htag; cbn [negb andb].
  - unfold isTagged in Htag. destruct (block_id b) as [id|]; [|discriminate Htag].
    split; discriminate.
  - exact IH.
Qed.

(** X11. The first tagged block decides: when no block before it is
    tagged, a block whose [block_id] is the tag followed by [s] makes
    [extractConversationId] return [s], whatever blocks follow, even
    tagged ones, and even when [s] is empty or holds the tag again. *)
Theorem first_tagged_block_wins
    (m : SlackMessage) (before after : list Block) (b : Block) (s : string) :
  sm_blocks m = Some (before ++ b :: after) ->
  forallb (fun b => negb (isTagged b)) before = true ->
  block_id b = Some ("conv_" ++ s)%string ->
  extractConversationId m = JsString s.
Proof.
  intros Hblocks Hbefore Hid. unfold extractConversationId. rewrite Hblocks.
  clear Hblocks. induction before as [|b0 before IH].
  - cbn [List.app]. rewrite extractFromBlocks_cons.
    unfold isTagged. rewrite Hid.
    rewrite (startsWith_app "conv_" s), (replace_prefix "conv_" s).
    reflexivity.
  - cbn [forallb] in Hbefore. apply andb_prop in Hbefore.
    destruct Hbefore as [Hb0 Hrest]. apply negb_true_iff in Hb0.
    cbn [List.app]. rewrite extractFromBlocks_cons, Hb0. apply IH. exact Hrest.
Qed.

Lemma first_tagged_block_wins_witness :
  sm_blocks Examples.layered =
    Some ([Examples.blockWith "header"] ++
          Examples.blockWith "conv_abc-123" :: [Examples.blockWith "conv_zzz"]) /\
  forallb (fun b => negb (isTagged b)) [Examples.blockWith "header"] = true /\
  block_id (Examples.blockWith "conv_abc-123") = Some ("conv_" ++ "abc-123")%string /\
  extractConversationId Examples.layered = JsString "abc-123".
Proof.
  repeat (split; [reflexivity|]).
  exact (first_tagged_block_wins Examples.layered
           [Examples.blockWith "header"] [Examples.blockWith "conv_zzz"]
           (Examples.blockWith "conv_abc-123") "abc-123"
           eq_refl eq_refl eq_refl).
Defined.

(** *** Only bots are read *)

(** X12. The scan of the history reads messages with a [bot_id] only: the
    blocks of a message without one are never decoded, so the located id
    is the same with those messages removed. *)
Theorem scan_reads_bots_only (msgs : list SlackMessage) :
  scanForConversationId msgs =
  scanForConversationId (filter (fun msg => truthyS (sm_bot_id msg)) msgs).
Proof.
  induction msgs as [|msg rest IH]; [reflexivity|].
  cbn [scanForConversationId filter].
  destruct (truthyS (sm_bot_id msg)) eqn:Hbot; [|exact IH].
  cbn [scanForConversationId]. rewrite Hbot, IH. reflexivity.
Qed.

(** *** A reply without an id *)

(** X13. When the backend answers without a conversation id (none, [null]
    or the empty string) and none was located in the thread, the reply is
    still composed and sent, and its hidden block carries the tag followed
    by the text [null]: decoded later, it gives the id [null]. *)
Theorem reply_without_id
    (env : Env) (w : World) (m : Message) (tr : Trace) (data : ResponseData) :
  In data (answersOf (events (processMessageRequest env w m) tr)) ->
  truthy (resp_conversation_id data) = false ->
  truthy (locatedId w m tr) = false ->
  exists reply,
    repliesOf (events (processMessageRequest env w m) tr) = [reply] /\
    option_map (map block_id) (sm_blocks reply) = Some [Some "conv_null"] /\
    extractConversationId reply = JsString "null".
Proof.
  intros Hin Hsupplied Hlocated.
  destruct (reply_of_answer env w m tr data Hin) as [posted Hreply].
  eexists. split; [exact Hreply|].
  assert (locatedId w m tr = JsNull) as Hnull.
  { destruct (located_null_or_truthy w m tr) as [H|H]; [exact H|].
    rewrite H in Hlocated. discriminate Hlocated. }
  split.
  - unfold updateFor, upd_payload, createMessageWithConversationId, sm_blocks.
    unfold orElse. rewrite Hsupplied, Hnull. reflexivity.
  - rewrite reply_embeds. unfold orElse. rewrite Hsupplied, Hnull. reflexivity.
Qed.

Lemma reply_without_id_witness :
  In (Examples.answer JsUndefined)
     (answersOf (events (processMessageRequest Examples.env1 Examples.silentBackend
                           (Examples.helloMention "1700000000.000100")) [])) /\
  truthy (resp_conversation_id (Examples.answer JsUndefined)) = false /\
  truthy (locatedId Examples.silentBackend
            (Examples.helloMention "1700000000.000100") []) = false /\
  exists reply,
    repliesOf (events (processMessageRequest Examples.env1 Examples.silentBackend
                         (Examples.helloMention "1700000000.000100")) []) =
    [reply] /\
    option_map (map block_id) (sm_blocks reply) = Some [Some "conv_null"] /\
    extractConversationId reply = JsString "null".
Proof.
  assert (In (Examples.answer JsUndefined)
             (answersOf (events (processMessageRequest Examples.env1
                                   Examples.silentBackend
                                   (Examples.helloMention "1700000000.000100")) [])))
    as Hin by (vm_compute; left; reflexivity).
  split; [exact Hin|]. split; [reflexivity|]. split; [reflexivity|].
  exact (reply_without_id Examples.env1 Examples.silentBackend
           (Examples.helloMention "1700000000.000100") [] _ Hin eq_refl eq_refl).
Defined.

(** *** What the reply shows *)

(** X14. When the backend answers, the one reply handed to [chat.update]
    shows the answer's text and nothing else: the [text] of the message
    and the text of its only block are the [response] of the answer (also
    when the answer has none), the block is a section of mrkdwn, and link
    and media unfurling are switched off. *)
Theorem reply_shows_answer
    (env : Env) (w : World) (m : Message) (tr : Trace) (data : ResponseData) :
  In data (answersOf (events (processMessageRequest env w m) tr)) ->
  exists reply block,
    repliesOf (events (processMessageRequest env w m) tr) = [reply] /\
    sm_text reply = resp_response data /\
    sm_blocks reply = Some [block] /\
    block_type block = "section" /\
    block_text block =
      Some {| to_type := "mrkdwn"; to_text := resp_response data |} /\
    sm_unfurl_links reply = Some false /\
    sm_unfurl_media reply = Some false.
Proof.
  intros Hin.
  destruct (reply_of_answer env w m tr data Hin) as [posted Hreply].
  eexists. eexists. split; [exact Hreply|].
  repeat split.
Qed.

Lemma reply_shows_answer_witness :
  In (Examples.answer JsUndefined)
     (answersOf (events (processMessageRequest Examples.env1 Examples.silentBackend
                           (Examples.helloMention "1700000000.000100")) [])) /\
  exists reply block,
    repliesOf (events (processMessageRequest Examples.env1 Examples.silentBackend
                         (Examples.helloMention "1700000000.000100")) []) =
    [reply] /\
    sm_text reply = Some "Hello!" /\
    sm_blocks reply = Some [block] /\
    block_type block = "section" /\
    block_text block = Some {| to_type := "mrkdwn"; to_text := Some "Hello!" |} /\
    sm_unfurl_links reply = Some false /\
    sm_unfurl_media reply = Some false.
Proof.
  assert (In (Examples.answer JsUndefined)
             (answersOf (events (processMessageRequest Examples.env1
                                   Examples.silentBackend
                                   (Examples.helloMention "1700000000.000100")) [])))
    as Hin by (vm_compute; left; reflexivity).
  split; [exact Hin|].
  exact (reply_shows_answer Examples.env1 Examples.silentBackend
           (Examples.helloMention "1700000000.000100") [] _ Hin).
Defined.

(** *** Stripping the mention *)

Lemma length_drop (k : nat) (s : string) :
  String.length (drop k s) = String.length s - k.
Proof.
  revert s. induction k as [|k IH]; intros s; [simpl; lia|].
  destruct s as [|c s]; [reflexivity|]. simpl. apply IH.
Qed.

(** With one unit of fuel per byte the skipping runs to its end. *)
Lemma skipWsFuel_done (len : string -> nat) (fuel : nat) (s : string) :
  len EmptyString = 0 ->
  String.length s <= fuel ->
  len (skipWsFuel len fuel s) = 0.
Proof.
  intros Hempty. revert s. induction fuel as [|fuel IH]; intros s Hfuel.
  - destruct s; [exact Hempty|simpl in Hfuel; lia].
  - cbn [skipWsFuel]. destruct (len s) as [|k] eqn:Hlen; [exact Hlen|].
    apply IH. rewrite length_drop. lia.
Qed.

Lemma skipWsFuel_fixed (len : string -> nat) (fuel : nat) (s : string) :
  len s = 0 -> skipWsFuel len fuel s = s.
Proof. intros H. destruct fuel; cbn [skipWsFuel]; [|rewrite H]; reflexivity. Qed.

Lemma skipWs_done (s : string) : wsLen (skipWs s) = 0.
Proof. apply skipWsFuel_done; [reflexivity|apply Nat.le_refl]. Qed.

Lemma trim_skipWs (s : string) : trim (skipWs s) = trim s.
Proof.
  unfold trim. cbv zeta.
  assert (skipWs (skipWs s) = skipWs s) as ->
      by (apply skipWsFuel_fixed, skipWs_done).
  reflexivity.
Qed.

Lemma skipWhile_stop (p : ascii -> bool) (u : string) (c : ascii) (rest : string) :
  allChars p u = true -> p c = false ->
  skipWhile p (u ++ String c rest) = String c rest.
Proof.
  intros Hall Hc. induction u as [|a u IH]; cbn [String.append skipWhile].
  - rewrite Hc. reflexivity.
  - cbn [allChars] in Hall. apply andb_prop in Hall. destruct Hall as [Ha Hu].
    rewrite Ha. apply IH. exact Hu.
Qed.

Lemma append_assoc (a b c : string) : ((a ++ b) ++ c = a ++ (b ++ c))%string.
Proof. induction a as [|x a IH]; simpl; [reflexivity|rewrite IH; reflexivity]. Qed.

(** X15. A mention at the very start of the text is stripped together
    with the white space after it, and the rest is trimmed: for a user id
    that is [U] or [W] followed by one or more capital letters or digits,
    with or without a display name after a bar, the cleaned text is the
    trimmed remainder.  A text that does not start with [<] is only
    trimmed, so a mention after leading white space stays in the text. *)
Theorem leading_mention_stripped
    (c : ascii) (uid name body : string) :
  isUW c = true ->
  isEmpty uid = false ->
  allChars isUpperOrDigit uid = true ->
  cleanMessageText (Some ("<@" ++ String c uid ++ ">" ++ body)%string) =
    Some (trim body) /\
  (isEmpty name = false -> allChars notGt name = true ->
   cleanMessageText
     (Some ("<@" ++ String c uid ++ "|" ++ name ++ ">" ++ body)%string) =
     Some (trim body)) /\
  (forall c0 rest, Ascii.eqb c0 "<"%char = false ->
     cleanMessageText (Some (String c0 rest)) = Some (trim (String c0 rest))).
Proof.
  intros Hc Hne Huid.
  destruct uid as [|d uid]; [discriminate Hne|].
  cbn [allChars] in Huid. apply andb_prop in Huid. destruct Huid as [Hd Huid].
  split; [|split].
  - unfold cleanMessageText. cbn [String.append isEmpty].
    unfold matchMention. rewrite Hc, Hd. cbn [andb].
    rewrite (skipWhile_stop isUpperOrDigit uid ">" body Huid eq_refl).
    cbn [closeMention]. rewrite trim_skipWs. reflexivity.
  - intros Hname Hall.
    destruct name as [|e name]; [discriminate Hname|].
    cbn [allChars] in Hall. apply andb_prop in Hall. destruct Hall as [He Hrest].
    unfold cleanMessageText. cbn [String.append isEmpty].
    unfold matchMention. rewrite Hc, Hd. cbn [andb].
    rewrite (skipWhile_stop isUpperOrDigit uid "|" _ Huid eq_refl).
    rewrite He.
    rewrite (skipWhile_stop notGt name ">" body Hrest eq_refl).
    cbn [closeMention]. rewrite trim_skipWs. reflexivity.
  - intros c0 rest Hc0. unfold cleanMessageText. cbn [isEmpty].
    assert (matchMention (String c0 rest) = None) as ->; [|reflexivity].
    unfold matchMention.
    destruct c0 as [[] [] [] [] [] [] [] []]; try reflexivity.
    discriminate Hc0.
Qed.

Lemma leading_mention_stripped_witness :
  isUW "U"%char = true /\
  isEmpty "09BR46BEV8" = false /\
  allChars isUpperOrDigit "09BR46BEV8" = true /\
  cleanMessageText (Some "<@U09BR46BEV8>   hello there  ") =
    Some "hello there".
Proof.
  repeat (split; [reflexivity|]).
  exact (proj1 (leading_mention_stripped "U"%char "09BR46BEV8" "matt"
                  "   hello there  " eq_refl eq_refl eq_refl)).
Defined.

(** *** The cleaned text is trimmed *)

Lemma append_nil_r (a : string) : (a ++ EmptyString)%string = a.
Proof. induction a as [|x a IH]; simpl; [reflexivity|rewrite IH; reflexivity]. Qed.

Lemma revOnto_acc (s acc : string) :
  revOnto s acc = (revOnto s EmptyString ++ acc)%string.
Proof.
  revert acc. induction s as [|c s IH]; intros acc; [reflexivity|].
  cbn [revOnto]. rewrite (IH (String c acc)), (IH (String c EmptyString)).
  rewrite append_assoc. reflexivity.
Qed.

Lemma revOnto_twice (s acc acc' : string) :
  revOnto (revOnto s acc) acc' = revOnto acc (s ++ acc')%string.
Proof.
  revert acc. induction s as [|c s IH]; intros acc; [reflexivity|].
  cbn [revOnto String.append]. rewrite IH. reflexivity.
Qed.

Lemma revOnto_involutive (s : string) :
  revOnto (revOnto s EmptyString) EmptyString = s.
Proof. rewrite revOnto_twice. cbn [revOnto]. apply append_nil_r. Qed.

Lemma length_append (a b : string) :
  String.length (a ++ b) = String.length a + String.length b.
Proof. induction a as [|x a IH]; simpl; [reflexivity|rewrite IH; reflexivity]. Qed.

Lemma length_revOnto (s : string) :
  String.length (revOnto s EmptyString) = String.length s.
Proof.
  induction s as [|c s IH]; [reflexivity|].
  cbn [revOnto]. rewrite revOnto_acc, length_append, IH. simpl. lia.
Qed.

Lemma drop_drop (j k : nat) (s : string) : drop j (drop k s) = drop (k + j) s.
Proof.
  revert s. induction k as [|k IH]; intros s; [reflexivity|].
  destruct s as [|c s]; [destruct j; reflexivity|]. simpl. apply IH.
Qed.

(** What the skipping returns is what is left of its argument. *)
Lemma skipWsFuel_drop (len : string -> nat) (fuel : nat) (s : string) :
  exists j, skipWsFuel len fuel s = drop j s.
Proof.
  revert s. induction fuel as [|fuel IH]; intros s; [exists 0; reflexivity|].
  cbn [skipWsFuel]. destruct (len s) as [|k]; [exists 0; reflexivity|].
  destruct (IH (drop (S k) s)) as [j Hj].
  exists (S k + j). rewrite Hj. apply drop_drop.
Qed.

(** Cutting the end of a string leaves a prefix of it. *)
Lemma drop_reversed_prefix (j : nat) (u : string) :
  exists q,
    revOnto u EmptyString = (revOnto (drop j u) EmptyString ++ q)%string.
Proof.
  revert u. induction j as [|j IH]; intros u.
  - exists EmptyString. cbn [drop]. symmetry. apply append_nil_r.
  - destruct u as [|c u]; [exists EmptyString; reflexivity|].
    destruct (IH u) as [q Hq].
    exists (q ++ String c EmptyString)%string.
    cbn [drop revOnto]. rewrite revOnto_acc, Hq, append_assoc. reflexivity.
Qed.

(** A string that starts with no white space has no prefix that does. *)
Lemma wsLen_prefix (p q : string) : wsLen (p ++ q) = 0 -> wsLen p = 0.
Proof.
  destruct p as [|a [|b [|c p]]]; cbn [String.append]; [reflexivity| | |].
  - unfold wsLen.
    destruct (((9 <=? nat_of_ascii a) && (nat_of_ascii a <=? 13)) ||
              (nat_of_ascii a =? 32)); [discriminate|reflexivity].
  - unfold wsLen.
    destruct (((9 <=? nat_of_ascii a) && (nat_of_ascii a <=? 13)) ||
              (nat_of_ascii a =? 32)); [discriminate|].
    destruct ((nat_of_ascii a =? 194) && (nat_of_ascii b =? 160));
      [discriminate|reflexivity].
  - intros H. exact H.
Qed.

Lemma trim_trimmed (s : string) :
  wsLen (trim s) = 0 /\ wsLenRev (revOnto (trim s) EmptyString) = 0.
Proof.
  unfold trim. cbv zeta.
  set (s1 := skipWs s).
  set (r := skipWsFuel wsLenRev (String.length s1) (revOnto s1 EmptyString)).
  split.
  - destruct (skipWsFuel_drop wsLenRev (String.length s1) (revOnto s1 EmptyString))
      as [j Hj]. fold r in Hj.
    destruct (drop_reversed_prefix j (revOnto s1 EmptyString)) as [q Hq].
    rewrite revOnto_involutive, <- Hj in Hq.
    apply (wsLen_prefix _ q). rewrite <- Hq. apply skipWs_done.
  - rewrite revOnto_involutive. unfold r.
    apply skipWsFuel_done; [reflexivity|].
    rewrite length_revOnto. apply Nat.le_refl.
Qed.

(** X16. The text that [cleanMessageText] returns for a text that is not
    empty neither starts nor ends with a white space character, ASCII or
    not; an empty or missing text is returned as it is. *)
Theorem cleaned_is_trimmed (txt : option string) :
  match txt with
  | None => cleanMessageText txt = None
  | Some s =>
    if isEmpty s then cleanMessageText txt = Some s
    else exists c,
        cleanMessageText txt = Some c /\
        wsLen c = 0 /\ wsLenRev (revOnto c EmptyString) = 0
  end.
Proof.
  destruct txt as [s|]; [|reflexivity].
  unfold cleanMessageText.
  destruct (isEmpty s); [reflexivity|].
  eexists. split; [reflexivity|]. apply trim_trimmed.
Qed.

(** *** What an event can cost *)

(** X1. Budget of an event: whatever the event and whatever the world
    answers, the message handler fetches the thread history at most twice
    and the mention handler at most once, and either handler posts at most
    two messages with [say], sends at most three requests to the backend
    and hands at most one edit to [chat.update]. *)
Theorem event_budget (env : Env) (w : World) (m : Message) (tr : Trace) :
  let viaMessage := events (messageHandler env w m) tr in
  let viaMention := events (appMentionHandler env w m) tr in
  (length (fetchesOf viaMessage) <= 2 /\
   length (saysOf viaMessage) <= 2 /\
   length (postsOf viaMessage) <= 3 /\
   length (updatesOf viaMessage) <= 1) /\
  (length (fetchesOf viaMention) <= 1 /\
   length (saysOf viaMention) <= 2 /\
   length (postsOf viaMention) <= 3 /\
   length (updatesOf viaMention) <= 1).
Proof.
  intros viaMessage viaMention. split.
  - unfold viaMessage.
    destruct (fromHuman m) eqn:Hhuman.
    2:{ unfold events. rewrite (not_from_human env w m tr Hhuman).
        unfold trace. cbn [snd]. rewrite skipn_all. cbn. repeat split; lia. }
    destruct (isDMChannel (channel m)) eqn:Hdm.
    { split_guards Hhuman. rewrite Hdm.
      unfold tryBind, bind, say, ok, ret, trace.
      destruct (on_say w tr _); cbn [snd]; rewrite skipn_extension; cbn;
        repeat split; lia. }
    destruct (outsideMonitored env (channel m)) eqn:Hout.
    { split_guards Hhuman. rewrite Hdm, Hout.
      destruct (isProbablyGroupDMOrPrivateChannel (channel m));
        unfold ok, ret, trace; cbn [andb snd]; rewrite skipn_all; cbn;
        repeat split; lia. }
    unfold events.
    rewrite (messageHandler_past_guards env w m tr Hhuman Hdm Hout).
    destruct (containsMention env m).
    { unfold bind, ret, ok, ret, trace. cbn [negb snd]. rewrite skipn_all. cbn.
      repeat split; lia. }
    destruct (threadReplyAnchor m) as [t|].
    2:{ unfold bind, ret, ok, ret, trace. cbn [negb snd]. rewrite skipn_all. cbn.
        repeat split; lia. }
    unfold bind, conversations_replies, ret, ok, ret, trace.
    set (req := {| rq_channel := channel m; rq_ts := t; rq_limit := 50 |}).
    destruct (on_replies w tr req) as [messages|e].
    2:{ cbn [negb snd]. rewrite skipn_extension. cbn. repeat split; lia. }
    destruct (hasBotMessages messages); cbn [negb snd].
    2:{ rewrite skipn_extension. cbn. repeat split; lia. }
    destruct (turn_run env w m (tr ++ [EvReplies req (Ok messages)]))
      as (out & new & Hval & Htrace & Hev & _).
    pose proof (turn_counts env w m (tr ++ [EvReplies req (Ok messages)])) as Hc.
    cbv zeta in Hc. rewrite Hev in Hc.
    destruct (processMessageRequest env w m (tr ++ [EvReplies req (Ok messages)]))
      as [o tr'] eqn:Hrun.
    unfold trace in Htrace. cbn [snd] in Htrace |- *. rewrite Htrace.
    rewrite <- app_assoc, skipn_extension. cbn [List.app].
    cbn [fetchesOf saysOf postsOf updatesOf length]. repeat split; lia.
  - unfold viaMention.
    destruct (outsideMonitored env (channel m)) eqn:Hout.
    + unfold events, appMentionHandler. rewrite Hout.
      unfold ret, trace. cbn [snd]. rewrite skipn_all. cbn. repeat split; lia.
    + destruct (appMentionHandler_inside env w m tr Hout) as [-> _].
      apply turn_counts.
Qed.
